(** * halorbits: frame transform, libration points, time grids and samplers

    A shallow embedding of the numeric core of the halorbits scripts
    ([nrho_plot.py], [test_transform.py], [jwst.py], [genesis_halo_plot.py],
    [lucy.py], [vger.py]).

    Modelling conventions.
    - numpy/SPICE double-precision arithmetic is idealised as exact real
      arithmetic ([R]); the spec's "≈" becomes "=".
    - The ephemeris backend ([sp.spkezr], [sp.et2utc], [sp.utc2et]) is an
      opaque oracle: a [Variable] of the enclosing [Section].
    - A numpy division whose divisor is 0 yields a NaN/inf array; such an
      undefined result is modelled by [None]. *)

From Stdlib Require Import Reals Psatz List String ZArith QArith Qround Bool.
From Stdlib Require Import DecimalString Qreals.
Import ListNotations.

Local Open Scope R_scope.

(** ** Three-vectors and 3x3 matrices *)

(** A length-3 numpy array; [c0 v] is [v[0]] and so on. *)
Record vec3 : Type := mk3 { c0 : R; c1 : R; c2 : R }.

(** The six-component state returned by [sp.spkezr]:
    [pos st] is [st[:3]], [vel st] is [st[3:]]. *)
Record state : Type := mkstate { pos : vec3; vel : vec3 }.

(** A 3x3 array given by its rows ([np.vstack], [np.array([a, b, c])]). *)
Record mat3 : Type := vstack { row0 : vec3; row1 : vec3; row2 : vec3 }.

Definition zero3 : vec3 := mk3 0 0 0.

Definition dot (a b : vec3) : R :=
  c0 a * c0 b + c1 a * c1 b + c2 a * c2 b.

(** [np.cross] / [sp.vcrss]. *)
Definition cross (a b : vec3) : vec3 :=
  mk3 (c1 a * c2 b - c2 a * c1 b)
      (c2 a * c0 b - c0 a * c2 b)
      (c0 a * c1 b - c1 a * c0 b).

(** [np.linalg.norm] on a vector. *)
Definition norm (v : vec3) : R := sqrt (dot v v).

Definition vscale (k : R) (v : vec3) : vec3 :=
  mk3 (k * c0 v) (k * c1 v) (k * c2 v).

(** [vec / k], componentwise. *)
Definition vdiv (v : vec3) (k : R) : vec3 :=
  mk3 (c0 v / k) (c1 v / k) (c2 v / k).

Definition vsub (a b : vec3) : vec3 :=
  mk3 (c0 a - c0 b) (c1 a - c1 b) (c2 a - c2 b).

(** [M @ v] / [M.dot(v)]. *)
Definition matvec (M : mat3) (v : vec3) : vec3 :=
  mk3 (dot (row0 M) v) (dot (row1 M) v) (dot (row2 M) v).

Definition det (M : mat3) : R := dot (row0 M) (cross (row1 M) (row2 M)).

(** ** Properties of a basis *)

Definition orthonormal (M : mat3) : Prop :=
  norm (row0 M) = 1 /\ norm (row1 M) = 1 /\ norm (row2 M) = 1 /\
  dot (row0 M) (row1 M) = 0 /\ dot (row0 M) (row2 M) = 0 /\
  dot (row1 M) (row2 M) = 0.

Definition right_handed (M : mat3) : Prop :=
  cross (row0 M) (row1 M) = row2 M.

(** [M] is a rotation: [M Mᵀ = I] (entry by entry) and [det M = 1]. *)
Definition is_rotation (M : mat3) : Prop :=
  dot (row0 M) (row0 M) = 1 /\ dot (row1 M) (row1 M) = 1 /\
  dot (row2 M) (row2 M) = 1 /\
  dot (row0 M) (row1 M) = 0 /\ dot (row0 M) (row2 M) = 0 /\
  dot (row1 M) (row2 M) = 0 /\
  det M = 1.

(** ** Normalisation *)

(** The local helper of [get_embr_transform]:
    [def vhat(vec): return vec / np.linalg.norm(vec)].
    With a zero norm numpy returns NaN components: [None]. *)
Definition vhat (vec : vec3) : option vec3 :=
  if Req_dec_T (norm vec) 0 then None else Some (vdiv vec (norm vec)).

(** SPICE's [vhat]: the unit vector along [v], and the zero vector when
    [v] is the zero vector. *)
Definition sp_vhat (v : vec3) : vec3 :=
  if Rlt_dec 0 (norm v) then vdiv v (norm v) else zero3.

Definition obind {A B : Type} (o : option A) (k : A -> option B) : option B :=
  match o with
  | Some a => k a
  | None => None
  end.

Notation "x <- o ;; k" := (obind o (fun x => k))
  (at level 61, o at next level, right associativity).

(** A state whose position is nonzero and not parallel to its velocity. *)
Definition nondegenerate (st : state) : Prop :=
  pos st <> zero3 /\ cross (pos st) (vel st) <> zero3.

(** [M] has the rows X = normalize(r), Y = Z × X, Z = normalize(r × v). *)
Definition embr_rows (st : state) (M : mat3) : Prop :=
  let r := pos st in
  let v := vel st in
  row0 M = vdiv r (norm r) /\
  row2 M = vdiv (cross r v) (norm (cross r v)) /\
  row1 M = cross (row2 M) (row0 M).

(** The matrix that both constructions produce on a non-degenerate state. *)
Definition embr_matrix (st : state) : mat3 :=
  let x := vdiv (pos st) (norm (pos st)) in
  let z := vdiv (cross (pos st) (vel st)) (norm (cross (pos st) (vel st))) in
  vstack x (cross z x) z.

(** ** Constants and identifiers *)

(** jwst.py and genesis_halo_plot.py, km^3/s^2. *)
Definition gm_sun : R := 1.32712440018e11.
Definition gm_earth : R := 3.986004418e5.

(** nrho_plot.py: the Earth-Moon mass parameter. *)
Definition mu : R := 0.012150585609624.

(** The Hill-sphere estimate: R · (m_small / (3·(m_large + m_small)))^(1/3). *)
Definition hill_distance (R_sep m_small m_large : R) : R :=
  R_sep * Rpower (m_small / (3 * (m_large + m_small))) (1 / 3).

(** A body identifier is an integer or a name; [str] is Python's [str]. *)
Inductive body_id : Type :=
| IntId (n : Z)
| StrId (s : string).

Definition str (sc_id : body_id) : string :=
  match sc_id with
  | IntId n => NilZero.string_of_int (Z.to_int n)
  | StrId s => s
  end.

(** ** The EMBR frame *)

Section Ephemeris.

(** [sp.spkezr(targ, et, ref, abcorr, obs)], first component. *)
Variable spkezr : string -> R -> string -> string -> string -> state.

(** [sp.utc2et]. *)
Variable utc2et : string -> R.

(** nrho_plot.py, [get_embr_transform]. *)
Definition get_embr_transform (et : R) : option mat3 :=
  let st_moon := spkezr "MOON" et "J2000" "NONE" "EMB" in
  let r := pos st_moon in
  let v := vel st_moon in
  x_hat <- vhat r ;;
  z_hat <- vhat (cross r v) ;;
  y_hat <- vhat (cross z_hat x_hat) ;;
  Some (vstack x_hat y_hat z_hat).

(** nrho_plot.py, the per-epoch loop body: [r_moon_embr = xfm @ st_moon[:3]]. *)
Definition r_moon_embr (et : R) : option vec3 :=
  let st_moon := spkezr "MOON" et "J2000" "NONE" "EMB" in
  xfm <- get_embr_transform et ;;
  Some (matvec xfm (pos st_moon)).

(** test_transform.py: the epoch and the inline construction. *)
Definition test_et : R := utc2et "2025-01-01T00:00:00".

Definition xfm_manual : mat3 :=
  let st_moon_j2000 := spkezr "MOON" test_et "J2000" "NONE" "EMB" in
  let pos_moon_j2000 := pos st_moon_j2000 in
  let vel_moon_j2000 := vel st_moon_j2000 in
  let x_axis := sp_vhat pos_moon_j2000 in
  let z_candidate := cross pos_moon_j2000 vel_moon_j2000 in
  let z_axis := sp_vhat z_candidate in
  let y_axis := cross z_axis x_axis in
  vstack x_axis y_axis z_axis.

Definition r_embr_manual : vec3 :=
  matvec xfm_manual (pos (spkezr "MOON" test_et "J2000" "NONE" "EMB")).

(** *** Collinear libration points *)

(** nrho_plot.py, lines 107-120: the Moon-to-L2 distance at the mid
    epoch.  [R_moon] is the norm of the Moon's EMB-relative position
    in EMBR coordinates. *)
Definition nrho_r_L2 (et_mid : R) : option R :=
  xfm_mid <- get_embr_transform et_mid ;;
  let st_moon_mid := spkezr "MOON" et_mid "J2000" "NONE" "EMB" in
  let r_moon_embr_mid := matvec xfm_mid (pos st_moon_mid) in
  let R_moon := norm r_moon_embr_mid in
  Some (R_moon * Rpower (mu / 3.0) (1.0 / 3.0)).

(** jwst.py, lines 109-118: one distance per sampled epoch. *)
Definition jwst_R_se_list (ets : list R) : list R :=
  map (fun et => norm (pos (spkezr "SUN" et "GSE" "NONE" "EARTH"))) ets.

Definition jwst_d_SE_L_arr (ets : list R) : list R :=
  map (fun R_se =>
         R_se * Rpower (gm_earth / (3.0 * (gm_sun + gm_earth))) (1.0 / 3.0))
      (jwst_R_se_list ets).

(** genesis_halo_plot.py, lines 82 and 113-115: one distance at the
    midpoint of the sampled window. *)
Definition genesis_et_mid (et_start et_end : R) : R :=
  0.5 * (et_start + et_end).

Definition genesis_d_SE_L (et_start et_end : R) : R :=
  let st_sun_mid :=
    spkezr "SUN" (genesis_et_mid et_start et_end) "GSE" "NONE" "EARTH" in
  let R_se := norm (pos st_sun_mid) in
  R_se * Rpower (gm_earth / (3.0 * (gm_sun + gm_earth))) (1.0 / 3.0).

(** The instantaneous separation of two bodies whose positions are
    given relative to the same centre. *)
Definition separation (targ1 targ2 : string) (et : R)
           (frame obs : string) : R :=
  norm (vsub (pos (spkezr targ1 et frame "NONE" obs))
             (pos (spkezr targ2 et frame "NONE" obs))).

(** *** The Voyager state sampler *)

(** [sp.et2utc(et, format, prec)]. *)
Variable et2utc : R -> string -> Z -> string.

(** The five result lists of vger.py's [sample_object]. *)
Definition samples : Type :=
  (list R * list R * list R * list R * list string)%type.

(** One iteration of the loop of [sample_object]. *)
Definition sample_step (targ : string) (acc : samples) (et : R) : samples :=
  let '(x, y, z, speeds, utcs) := acc in
  let st_sc := spkezr targ et "VGER" "NONE" "SUN" in
  let r := pos st_sc in
  if Rle_dec (c1 r) 6e9 then
    let v := vel st_sc in
    let speed := norm v in
    (x ++ [c0 r], y ++ [c1 r], z ++ [c2 r],
     speeds ++ [speed], utcs ++ [et2utc et "C" 0%Z])
  else acc.

(** vger.py, [sample_object]. *)
Definition sample_object (sc_id : body_id) (et_array : list R) : samples :=
  let targ := str sc_id in
  fold_left (sample_step targ) et_array ([], [], [], [], []).

(** The state that [sample_object] queries at one epoch. *)
Definition vger_state (sc_id : body_id) (et : R) : state :=
  spkezr (str sc_id) et "VGER" "NONE" "SUN".

(** The test of the [if] in [sample_object], as a boolean on epochs. *)
Definition retained (sc_id : body_id) (et : R) : bool :=
  if Rle_dec (c1 (pos (vger_state sc_id et))) 6e9 then true else false.

(** The unfiltered sample at one epoch: position, speed and label. *)
Definition raw_sample (sc_id : body_id) (et : R) : vec3 * R * string :=
  let st_sc := vger_state sc_id et in
  (pos st_sc, norm (vel st_sc), et2utc et "C" 0%Z).

End Ephemeris.

(** Some coordinate of [r] exceeds the 6e9 km threshold in magnitude. *)
Definition exceeds_threshold (r : vec3) : Prop :=
  Rabs (c0 r) > 6e9 \/ Rabs (c1 r) > 6e9 \/ Rabs (c2 r) > 6e9.

(** [kept] is [l] with some elements left out, order preserved. *)
Inductive subseq {A : Type} : list A -> list A -> Prop :=
| subseq_nil : subseq [] []
| subseq_skip (a : A) (kept l : list A) : subseq kept l -> subseq kept (a :: l)
| subseq_take (a : A) (kept l : list A) :
    subseq kept l -> subseq (a :: kept) (a :: l).

(** ** Triangular libration points (lucy.py) *)

(** [np.deg2rad]. *)
Definition deg2rad (deg : R) : R := deg * (PI / 180).

(** Python's [zip] of three sequences: stops at the shortest. *)
Fixpoint zip3 {A B C : Type} (l1 : list A) (l2 : list B) (l3 : list C)
  : list (A * B * C) :=
  match l1, l2, l3 with
  | a :: t1, b :: t2, c :: t3 => (a, b, c) :: zip3 t1 t2 t3
  | _, _, _ => []
  end.

Definition triple_lists : Type := (list R * list R * list R)%type.

(** One iteration of the loop of [compute_l4_l5_from_jupiter]. *)
Definition l4_l5_step (cos_t sin_t : R) (acc : triple_lists * triple_lists)
           (p : R * R * R) : triple_lists * triple_lists :=
  let '((l4_x, l4_y, l4_z), (l5_x, l5_y, l5_z)) := acc in
  let '(xi, yi, zi) := p in
  let x4 := xi * cos_t - yi * sin_t in
  let y4 := xi * sin_t + yi * cos_t in
  let z4 := zi in
  let x5 := xi * cos_t + yi * sin_t in
  let y5 := - xi * sin_t + yi * cos_t in
  let z5 := zi in
  ((l4_x ++ [x4], l4_y ++ [y4], l4_z ++ [z4]),
   (l5_x ++ [x5], l5_y ++ [y5], l5_z ++ [z5])).

(** lucy.py, [compute_l4_l5_from_jupiter]; [deg] defaults to 60. *)
Definition compute_l4_l5_from_jupiter (jx jy jz : list R) (deg : R)
  : triple_lists * triple_lists :=
  let theta := deg2rad deg in
  let cos_t := cos theta in
  let sin_t := sin theta in
  fold_left (l4_l5_step cos_t sin_t) (zip3 jx jy jz)
            (([], [], []), ([], [], [])).

(** The rotation by [theta] about the +Z axis. *)
Definition rotz (theta : R) : mat3 :=
  vstack (mk3 (cos theta) (- sin theta) 0)
         (mk3 (sin theta) (cos theta) 0)
         (mk3 0 0 1).

(** The three coordinate lists of a list of points. *)
Definition columns (l : list vec3) : triple_lists :=
  (map c0 l, map c1 l, map c2 l).

Definition point (p : R * R * R) : vec3 :=
  let '(x, y, z) := p in mk3 x y z.

(** The two points computed in one loop iteration. *)
Definition l4_point (cos_t sin_t : R) (p : R * R * R) : vec3 :=
  let '(xi, yi, zi) := p in
  mk3 (xi * cos_t - yi * sin_t) (xi * sin_t + yi * cos_t) zi.

Definition l5_point (cos_t sin_t : R) (p : R * R * R) : vec3 :=
  let '(xi, yi, zi) := p in
  mk3 (xi * cos_t + yi * sin_t) (- xi * sin_t + yi * cos_t) zi.

(** ** Time grids (vger.py, jwst.py)

    The grid builders use only [+], [-], [*], [/] and the ceiling, so
    epochs are modelled here as exact rationals and the grids compute. *)

Module TimeGrid.

Local Open Scope Q_scope.

Definition of_nat (i : nat) : Q := inject_Z (Z.of_nat i).

(** [np.arange(start, stop, step)]: [ceil((stop - start) / step)]
    samples [start + i * step]. *)
Definition arange (start stop step : Q) : list Q :=
  let n := Z.to_nat (Qceiling ((stop - start) / step)) in
  map (fun i => start + of_nat i * step) (seq 0 n).

(** [np.linspace(start, stop, num)]: [num] samples, the last one set
    to [stop] when [num > 1]. *)
Definition linspace (start stop : Q) (num : nat) : list Q :=
  match num with
  | O => []
  | S O => [start]
  | S div =>
      let step := (stop - start) / of_nat div in
      map (fun i => start + of_nat i * step) (seq 0 div) ++ [stop]
  end.

(** vger.py, lines 67-69: [ets = np.arange(et_start, et_end, 86400.0)]. *)
Definition vger_ets (et_start et_end : Q) : list Q :=
  arange et_start et_end 86400.0.

Definition vger_total_pts (et_start et_end : Q) : nat :=
  List.length (vger_ets et_start et_end).

(** jwst.py, line 71:
    [total_pts = int(np.ceil((et_end - et_start) / 86400.0))]. *)
Definition jwst_total_pts (et_start et_end : Q) : nat :=
  Z.to_nat (Qceiling ((et_end - et_start) / 86400.0)).

(** jwst.py, line 79 with [sample_spacecraft], line 35:
    [ets = np.linspace(et_start, et_start + period, npts)] called with
    [period = et_end - et_start] and [npts = total_pts]. *)
Definition jwst_ets (et_start et_end : Q) : list Q :=
  let period := et_end - et_start in
  let npts := jwst_total_pts et_start et_end in
  linspace et_start (et_start + period) npts.

(** The floor of the elapsed duration divided by the cadence. *)
Definition floor_count (et_start et_end cadence : Q) : nat :=
  Z.to_nat (Qfloor ((et_end - et_start) / cadence)).

End TimeGrid.

(** ** Static export (nrho_plot.py, genesis_halo_plot.py) *)

Module StaticExport.

Local Open Scope string_scope.

(** The exception classes that matter to the handler. *)
Inductive exc_class : Type :=
| BaseException | SystemExit | KeyboardInterrupt | GeneratorExit
| Exception | ValueError | RuntimeError | ImportError | OSError.

(** [issubclass(c, Exception)] in Python's built-in hierarchy. *)
Definition issubclass_Exception (c : exc_class) : bool :=
  match c with
  | BaseException | SystemExit | KeyboardInterrupt | GeneratorExit => false
  | Exception | ValueError | RuntimeError | ImportError | OSError => true
  end.

(** A raised exception: its class and its [str()]. *)
Record py_exc : Type := mk_exc { exc_cls : exc_class; exc_str : string }.

(** What the script can observe and change: directories, files with
    their contents, the lines printed, and whether a viewer was opened. *)
Record world : Type := mk_world {
  dirs : list string;
  files : list (string * string);
  stdout : list string;
  shown : bool
}.

Inductive outcome (A : Type) : Type :=
| Ret (a : A)
| Raise (e : py_exc).
Arguments Ret {A} a.
Arguments Raise {A} e.

(** Computations that change the world and return or raise. *)
Definition M (A : Type) : Type := world -> outcome A * world.

Definition ret {A : Type} (a : A) : M A := fun w => (Ret a, w).

Definition bind {A B : Type} (m : M A) (k : A -> M B) : M B :=
  fun w =>
    match m w with
    | (Ret a, w') => k a w'
    | (Raise e, w') => (Raise e, w')
    end.

Definition seq_ {B : Type} (m : M unit) (k : M B) : M B :=
  bind m (fun _ => k).

(** [try: body  except Exception as e: handler(e)]. *)
Definition try_except_Exception (body : M unit) (handler : py_exc -> M unit)
  : M unit :=
  fun w =>
    match body w with
    | (Ret a, w') => (Ret a, w')
    | (Raise e, w') =>
        if issubclass_Exception (exc_cls e) then handler e w'
        else (Raise e, w')
    end.

Definition print (line : string) : M unit :=
  fun w => (Ret tt, mk_world (dirs w) (files w) (stdout w ++ [line]) (shown w)).

(** [os.makedirs(d, exist_ok=True)]. *)
Definition os_makedirs (d : string) : M unit :=
  fun w =>
    (Ret tt,
     mk_world (if existsb (String.eqb d) (dirs w) then dirs w else dirs w ++ [d])
              (files w) (stdout w) (shown w)).

(** [os.path.join] of two relative components. *)
Definition os_path_join (d f : string) : string := d ++ "/" ++ f.

Definition write_file (path content : string) : M unit :=
  fun w =>
    (Ret tt,
     mk_world (dirs w)
              ((path, content)
                 :: filter (fun pc => negb (String.eqb (fst pc) path)) (files w))
              (stdout w) (shown w)).

Fixpoint lookup (path : string) (fs : list (string * string)) : option string :=
  match fs with
  | [] => None
  | (p, c) :: rest => if String.eqb p path then Some c else lookup path rest
  end.

Section Figure.

(** The figure's HTML and PNG renderings. *)
Variable fig_html : string.
Variable fig_png : string.

(** What the rasterizer does when asked: [None] when it succeeds,
    [Some e] when it raises [e] (nothing is written then). *)
Variable rasterizer : option py_exc.

Definition fig_write_html (path : string) : M unit :=
  write_file path fig_html.

Definition fig_write_image (path : string) : M unit :=
  match rasterizer with
  | None => write_file path fig_png
  | Some e => fun w => (Raise e, w)
  end.

Definition fig_show : M unit :=
  fun w => (Ret tt, mk_world (dirs w) (files w) (stdout w) true).

(** The output-control block shared by nrho_plot.py (lines 170-188)
    and genesis_halo_plot.py (lines 147-159). *)
Definition output_control (html_name png_name : string)
           (argv : list string) : M unit :=
  if existsb (String.eqb "--static") argv then
    seq_ (os_makedirs "docs")
    (let html_path := os_path_join "docs" html_name in
     let png_path := os_path_join "docs" png_name in
     seq_ (fig_write_html html_path)
     (seq_ (print ("Wrote interactive HTML: " ++ html_path))
     (try_except_Exception
        (seq_ (fig_write_image png_path)
              (print ("Wrote static preview PNG: " ++ png_path)))
        (fun e =>
           print ("PNG export failed (do you have 'kaleido' installed?): "
                    ++ exc_str e)))))
  else fig_show.

Definition nrho_plot_output : list string -> M unit :=
  output_control "nrho_plot.html" "nrho_preview.png".

Definition genesis_halo_plot_output : list string -> M unit :=
  output_control "genesis_halo_plot.html" "genesis_halo_preview.png".

End Figure.

(** The warning printed by the handler. *)
Definition png_warning (e : py_exc) : string :=
  "PNG export failed (do you have 'kaleido' installed?): " ++ exc_str e.

(** The state left by the static branch up to and including the HTML
    export and its message. *)
Definition after_html (fig_html html_name : string) (w : world) : world :=
  let html_path := os_path_join "docs" html_name in
  snd (seq_ (os_makedirs "docs")
            (seq_ (fig_write_html fig_html html_path)
                  (print ("Wrote interactive HTML: " ++ html_path))) w).

Definition initial_world : world := mk_world [] [] [] false.

End StaticExport.

(** ** More time grids (juice_*.py, jwst.py, lucy.py, nrho_plot.py) *)

Module MoreGrids.

Import TimeGrid.
Local Open Scope Q_scope.

(** Python's [int] on a float: truncation toward zero. *)
Definition py_int (q : Q) : Z :=
  if Qle_bool 0 q then Qfloor q else Qceiling q.

(** [np.linspace] called with a Python integer: a negative number of
    samples raises [ValueError], modelled by [None]. *)
Definition np_linspace (start stop : Q) (num : Z) : option (list Q) :=
  if (num <? 0)%Z then None else Some (linspace start stop (Z.to_nat num)).

(** juice_cruise.py, line 85; juice_jupiter.py, line 89;
    juice_ganymede.py, line 87: [per_day] is 1, 8 and 256. *)
Definition juice_total_pts (per_day et_start et_end : Q) : Z :=
  py_int (per_day * (et_end - et_start) / 86400.0).

Definition juice_cruise_total_pts (et_start et_end : Q) : Z :=
  py_int ((et_end - et_start) / 86400.0).

(** The epochs of the [sample_object] of the juice scripts, called with
    [period = et_end - et_start] and [npts = total_pts]. *)
Definition juice_ets (per_day et_start et_end : Q) : option (list Q) :=
  let period := et_end - et_start in
  np_linspace et_start (et_start + period)
              (juice_total_pts per_day et_start et_end).

Definition juice_cruise_ets (et_start et_end : Q) : option (list Q) :=
  let period := et_end - et_start in
  np_linspace et_start (et_start + period)
              (juice_cruise_total_pts et_start et_end).

(** lucy.py, lines 97-99: [total_pts = int(np.ceil(total_days))]. *)
Definition lucy_total_pts (et_start et_end : Q) : Z :=
  let seconds_per_day := 86400.0 in
  let total_days := (et_end - et_start) / seconds_per_day in
  Qceiling total_days.

(** lucy.py, line 104 with [sample_object], line 29. *)
Definition lucy_ets (et_start et_end : Q) : option (list Q) :=
  let period := et_end - et_start in
  np_linspace et_start (et_start + period) (lucy_total_pts et_start et_end).

(** jwst.py, line 110: the second grid, used for the hover labels. *)
Definition jwst_label_ets (et_start et_end : Q) : list Q :=
  linspace et_start et_end (jwst_total_pts et_start et_end).

(** nrho_plot.py, lines 75-78. *)
Definition nrho_period : Q := 6.7 * 86400.0.
Definition nrho_npts : nat := 400.

Definition nrho_ets (et_start : Q) : list Q :=
  linspace et_start (et_start + nrho_period) nrho_npts.

(** [0.5 * (ets[0] + ets[-1])]. *)
Definition nrho_et_mid (et_start : Q) : Q :=
  0.5 * (hd 0 (nrho_ets et_start) + last (nrho_ets et_start) 0).

End MoreGrids.

(** ** The other state samplers and their hover data *)

Section Sampling.

Variable spkezr : string -> R -> string -> string -> string -> state.
Variable et2utc : R -> string -> Z -> string.

(** One iteration of a position-only sampling loop
    (genesis_halo_plot.py lines 36-39, juice_cruise.py lines 50-53). *)
Definition pos_step (targ frame obs : string) (acc : triple_lists) (et : Q)
  : triple_lists :=
  let '(x, y, z) := acc in
  let st_sc := spkezr targ (Q2R et) frame "NONE" obs in
  let r_plot := pos st_sc in
  (x ++ [c0 r_plot], y ++ [c1 r_plot], z ++ [c2 r_plot]).

(** genesis_halo_plot.py, [sample_spacecraft]. *)
Definition genesis_sample_spacecraft (sc_id : body_id) (et_start period : Q)
           (npts : nat) : triple_lists :=
  let targ := str sc_id in
  let ets := TimeGrid.linspace et_start (et_start + period)%Q npts in
  fold_left (pos_step targ "GSE" "EARTH") ets ([], [], []).

(** juice_cruise.py, [sample_object]; a negative [npts] raises in
    [np.linspace]. *)
Definition juice_cruise_sample_object (sc_id : body_id) (et_start period : Q)
           (npts : Z) : option triple_lists :=
  let targ := str sc_id in
  ets <- MoreGrids.np_linspace et_start (et_start + period)%Q npts ;;
  Some (fold_left (pos_step targ "JUICE" "SUN") ets ([], [], [])).

(** One iteration of a position-and-velocity sampling loop
    (jwst.py lines 38-43, lucy.py lines 32-37). *)
Definition state_step (targ frame obs : string)
           (acc : triple_lists * triple_lists) (et : Q)
  : triple_lists * triple_lists :=
  let '((x, y, z), (vx, vy, vz)) := acc in
  let st_sc := spkezr targ (Q2R et) frame "NONE" obs in
  let r_plot := pos st_sc in
  let v_plot := vel st_sc in
  ((x ++ [c0 r_plot], y ++ [c1 r_plot], z ++ [c2 r_plot]),
   (vx ++ [c0 v_plot], vy ++ [c1 v_plot], vz ++ [c2 v_plot])).

(** jwst.py, [sample_spacecraft]: returns [(x, y, z, ets, vx, vy, vz)],
    grouped here as positions, epochs, velocities. *)
Definition jwst_sample_spacecraft (sc_id : body_id) (et_start period : Q)
           (npts : nat) : triple_lists * list Q * triple_lists :=
  let targ := str sc_id in
  let ets := TimeGrid.linspace et_start (et_start + period)%Q npts in
  let r := fold_left (state_step targ "GSE" "EARTH") ets
                     (([], [], []), ([], [], [])) in
  (fst r, ets, snd r).

(** lucy.py, [sample_object]. *)
Definition lucy_sample_object (sc_id : body_id) (et_start period : Q)
           (npts : nat) : triple_lists * list Q * triple_lists :=
  let targ := str sc_id in
  let ets := TimeGrid.linspace et_start (et_start + period)%Q npts in
  let r := fold_left (state_step targ "HJB" "SUN") ets
                     (([], [], []), ([], [], [])) in
  (fst r, ets, snd r).

(** [[np.linalg.norm([vx[i], vy[i], vz[i]]) for i in range(len(vx))]]
    (jwst.py line 135, lucy.py line 138). *)
Definition speeds_of (v : triple_lists) : list R :=
  let '(vx, vy, vz) := v in
  map (fun i => norm (mk3 (nth i vx 0) (nth i vy 0) (nth i vz 0)))
      (seq 0 (List.length vx)).

(** jwst.py, lines 79, 110 and 133-139: the hover data, built from the
    velocities of the sampling call and the labels of a second grid. *)
Definition jwst_customdata (et_start et_end : Q) : list (string * R) :=
  let total_pts := TimeGrid.jwst_total_pts et_start et_end in
  let '(_, _, v) :=
    jwst_sample_spacecraft (IntId (-170)) et_start (et_end - et_start)%Q
                           total_pts in
  let ets := TimeGrid.linspace et_start et_end total_pts in
  let utc_times := map (fun et => et2utc (Q2R et) "C" 0%Z) ets in
  let speeds := speeds_of v in
  combine utc_times speeds.

(** lucy.py, lines 104 and 136-142: the labels come from the epochs that
    [sample_object] returned. *)
Definition lucy_customdata (et_start et_end : Q) (total_pts : nat)
  : list (string * R) :=
  let '(_, ets, v) :=
    lucy_sample_object (IntId (-49)) et_start (et_end - et_start)%Q
                       total_pts in
  let utc_times := map (fun et => et2utc (Q2R et) "C" 0%Z) ets in
  let speeds := speeds_of v in
  combine utc_times speeds.

(** numpy's conversion of a float to text, used when a float column is
    stacked with a column of strings. *)
Variable float_str : R -> string.

(** [np.column_stack([col0, col1])] on a list of strings and a list of
    floats of the same length: one homogeneous array of strings with two
    columns, the floats converted to text. *)
Definition np_column_stack (col0 : list string) (col1 : list R)
  : list (list string) :=
  map (fun row => [fst row; float_str (snd row)]) (combine col0 col1).

(** vger.py, lines 99 and 104: [np.column_stack([utcs, speeds])] when the
    two lists have the same length, else [None] (Python's [None] is the
    outer [None] here). *)
Definition voyager_custom (s : samples) : option (list (list string)) :=
  let '(_, _, _, speeds, utcs) := s in
  if Nat.eqb (List.length utcs) (List.length speeds)
  then Some (np_column_stack utcs speeds) else None.

End Sampling.

(** ** Spheres (every plotting script: [make_sphere]) *)

(** One axis of [np.mgrid[0:stop:nj]]: [n] values from 0 to [stop]
    inclusive. *)
Definition mgrid_axis (stop : R) (n : nat) : list R :=
  map (fun i => INR i * (stop / INR (n - 1))) (seq 0 n).

(** The arguments handed to [go.Surface]. *)
Record surface : Type := mk_surface {
  surface_x : list (list R);
  surface_y : list (list R);
  surface_z : list (list R);
  surface_colorscale : list (R * string);
  surface_showscale : bool;
  surface_name : string;
  surface_opacity : R
}.

(** [make_sphere(center, radius, color, name)]; row [i] is [u[i]],
    column [j] is [v[j]]. *)
Definition make_sphere (center : vec3) (radius : R) (color name : string)
  : surface :=
  let us := mgrid_axis (2 * PI) 40 in
  let vs := mgrid_axis PI 20 in
  let xs := map (fun u => map (fun v => radius * cos u * sin v + c0 center) vs) us in
  let ys := map (fun u => map (fun v => radius * sin u * sin v + c1 center) vs) us in
  let zs := map (fun u => map (fun v => radius * cos v + c2 center) vs) us in
  mk_surface xs ys zs [(0, color); (1, color)] false name 0.8.

(** The point of the surface in row [i] and column [j]. *)
Definition surface_point (s : surface) (i j : nat) : vec3 :=
  mk3 (nth j (nth i (surface_x s) []) 0)
      (nth j (nth i (surface_y s) []) 0)
      (nth j (nth i (surface_z s) []) 0).

(** ** Output control without a PNG preview
       (vger.py, jwst.py, lucy.py, juice_*.py) *)

Module HtmlExport.

Import StaticExport.
Local Open Scope string_scope.

(** vger.py lines 141-147, jwst.py lines 180-186, lucy.py lines 220-226,
    juice_cruise.py lines 121-127. *)
Definition output_control_html (fig_html html_name : string)
           (argv : list string) : M unit :=
  if existsb (String.eqb "--static") argv then
    seq_ (os_makedirs "docs")
    (let html_path := os_path_join "docs" html_name in
     seq_ (fig_write_html fig_html html_path)
          (print ("Wrote interactive HTML: " ++ html_path)))
  else fig_show.

Definition vger_output (fig_html : string) : list string -> M unit :=
  output_control_html fig_html "vger.html".

Definition jwst_output (fig_html : string) : list string -> M unit :=
  output_control_html fig_html "jwst_plot.html".

Definition lucy_output (fig_html : string) : list string -> M unit :=
  output_control_html fig_html "lucy_plot.html".

Definition juice_cruise_output (fig_html : string) : list string -> M unit :=
  output_control_html fig_html "juice_cruise.html".

End HtmlExport.

(** ** More of lucy.py *)

(** [np.mean] of a list; the mean of an empty list is NaN: [None]. *)
Definition np_mean (l : list R) : option R :=
  match l with
  | [] => None
  | _ => Some (fold_right Rplus 0 l / INR (List.length l))
  end.

(** lucy.py, lines 164 and 169-170: [(np.mean(x), np.mean(y), np.mean(z))]. *)
Definition mean_point (t : triple_lists) : option vec3 :=
  let '(x, y, z) := t in
  mx <- np_mean x ;;
  my <- np_mean y ;;
  mz <- np_mean z ;;
  Some (mk3 mx my mz).

(** A Python [dict] with string keys, in insertion order. *)
Definition dict : Type := list (string * string).

(** [d[k] = v]: replaces the value of an existing key, else appends. *)
Fixpoint dict_set (d : dict) (k v : string) : dict :=
  match d with
  | [] => [(k, v)]
  | (k', v') :: rest =>
      if String.eqb k' k then (k', v) :: rest
      else (k', v') :: dict_set rest k v
  end.

(** [d.get(k, default)]. *)
Fixpoint dict_get (d : dict) (k default : string) : string :=
  match d with
  | [] => default
  | (k', v') :: rest => if String.eqb k' k then v' else dict_get rest k default
  end.

(** lucy.py, lines 109-117. *)
Definition target_defs : list (string * string * string) :=
  [("PATROCLUS BARYCENTER", "20000617", "purple");
   ("DONALDJOHANSON", "20052246", "teal");
   ("LEUCUS", "20011351", "brown");
   ("20152830", "20152830", "crimson");
   ("POLYMELE", "20015094", "gold");
   ("EURYBATES", "920003548", "cyan");
   ("ORUS", "20021900", "lime")]%string.

(** lucy.py, line 186:
    [{ident: color for (_, ident, color) in target_defs}]. *)
Definition ident_to_color (defs : list (string * string * string)) : dict :=
  fold_left (fun d t => let '(_, ident, color) := t in dict_set d ident color)
            defs [].

(** lucy.py, line 206: the colour of an intercept marker. *)
Definition intercept_color (defs : list (string * string * string))
           (ident : string) : string :=
  dict_get (ident_to_color defs) ident "black".

(** ** More of nrho_plot.py and test_transform.py *)

(** [np.degrees]. *)
Definition np_degrees (x : R) : R := x * (180 / PI).

Section Scene.

Variable spkezr : string -> R -> string -> string -> string -> state.
Variable utc2et : string -> R.

(** nrho_plot.py, lines 87-102, the loop body: the Gateway's position in
    Moon-centric EMBR coordinates at one epoch. *)
Definition nrho_r_mc (et : R) : option vec3 :=
  let st_gw := spkezr "-60000" et "J2000" "NONE" "EMB" in
  let st_moon := spkezr "MOON" et "J2000" "NONE" "EMB" in
  xfm <- get_embr_transform spkezr et ;;
  let r_gw_embr := matvec xfm (pos st_gw) in
  let r_moon_embr := matvec xfm (pos st_moon) in
  let r_mc := vsub r_gw_embr r_moon_embr in
  Some r_mc.

(** One iteration of that loop on the three coordinate lists; an
    undefined transform makes the trace undefined. *)
Definition nrho_step (acc : option triple_lists) (et : R)
  : option triple_lists :=
  xyz <- acc ;;
  r_mc <- nrho_r_mc et ;;
  let '(x, y, z) := xyz in
  Some (x ++ [c0 r_mc], y ++ [c1 r_mc], z ++ [c2 r_mc]).

(** nrho_plot.py, lines 86-102. *)
Definition nrho_trace (ets : list R) : option triple_lists :=
  fold_left nrho_step ets (Some ([], [], [])).

(** nrho_plot.py, lines 106-115: the Earth's Moon-centric position at
    the mid epoch. *)
Definition nrho_earth_center_mc (et_mid : R) : option vec3 :=
  let st_earth_mid := spkezr "EARTH" et_mid "J2000" "NONE" "EMB" in
  xfm_mid <- get_embr_transform spkezr et_mid ;;
  let r_earth_embr := matvec xfm_mid (pos st_earth_mid) in
  let st_moon_mid := spkezr "MOON" et_mid "J2000" "NONE" "EMB" in
  let r_moon_embr_mid := matvec xfm_mid (pos st_moon_mid) in
  Some (vsub r_earth_embr r_moon_embr_mid).

(** nrho_plot.py, line 121: the L2 marker. *)
Definition nrho_l2_mc (et_mid : R) : option vec3 :=
  r_L2 <- nrho_r_L2 spkezr et_mid ;;
  Some (mk3 r_L2 0.0 0.0).

(** test_transform.py, lines 39-42: the distance and the three angles
    that the script prints.  A zero distance gives NaN angles: [None]. *)
Definition R_embr_manual : R := norm (r_embr_manual spkezr utc2et).

Definition ang_embr_manual (component : vec3 -> R) : option R :=
  if Req_dec_T R_embr_manual 0 then None
  else Some (np_degrees
               (acos (component (r_embr_manual spkezr utc2et) / R_embr_manual))).

Definition ang_embr_x_manual : option R := ang_embr_manual c0.
Definition ang_embr_y_manual : option R := ang_embr_manual c1.
Definition ang_embr_z_manual : option R := ang_embr_manual c2.

End Scene.

(** A body at phase [theta] of a circular prograde orbit of radius [R0]
    and angular rate [omega] in the XY plane. *)
Definition circular_state (R0 omega theta : R) : state :=
  mkstate (mk3 (R0 * cos theta) (R0 * sin theta) 0)
          (mk3 (- (R0 * omega * sin theta)) (R0 * omega * cos theta) 0).

(** The Moon on such an orbit, the phase growing with the epoch. *)
Definition orbiting_moon (R0 omega : R)
  : string -> R -> string -> string -> string -> state :=
  fun _ et _ _ _ => circular_state R0 omega (omega * et).

(** The Moon as in [earth_moon] and the Gateway off the Earth-Moon line. *)
Definition gateway_scene : string -> R -> string -> string -> string -> state :=
  fun targ _ _ _ _ =>
    if String.eqb targ "MOON" then mkstate (mk3 81 0 0) (mk3 0 1 0)
    else if String.eqb targ "EARTH"
         then mkstate (mk3 (-1) 0 0) (mk3 0 (-1 / 81) 0)
         else mkstate (mk3 81 3 4) (mk3 0 0 1).

(** The same scene in other units: positions doubled, velocities tripled. *)
Definition rescaled_moon : string -> R -> string -> string -> string -> state :=
  fun _ _ _ _ _ => mkstate (mk3 2 0 0) (mk3 0 3 0).

(** ** Concrete ephemerides used in examples *)

(** The Moon on a unit circular orbit in the XY plane. *)
Definition circular_moon : string -> R -> string -> string -> string -> state :=
  fun _ _ _ _ _ => mkstate (mk3 1 0 0) (mk3 0 1 0).

(** A radial fall: velocity parallel to position. *)
Definition radial_moon : string -> R -> string -> string -> string -> state :=
  fun _ _ _ _ _ => mkstate (mk3 1 0 0) (mk3 2 0 0).

(** The Moon 81 units from the barycentre and the Earth 1 unit on the
    other side of it. *)
Definition earth_moon : string -> R -> string -> string -> string -> state :=
  fun targ _ _ _ _ =>
    if String.eqb targ "MOON" then mkstate (mk3 81 0 0) (mk3 0 1 0)
    else if String.eqb targ "EARTH" then mkstate (mk3 (-1) 0 0) (mk3 0 (-1 / 81) 0)
    else mkstate zero3 zero3.

(** A body far out along +X, and one far out along -Y. *)
Definition far_x : string -> R -> string -> string -> string -> state :=
  fun _ _ _ _ _ => mkstate (mk3 7e9 0 0) (mk3 3 4 0).

Definition far_neg_y : string -> R -> string -> string -> string -> state :=
  fun _ _ _ _ _ => mkstate (mk3 0 (- 7e9) 0) (mk3 3 4 0).

(** A body whose Y coordinate is the epoch itself. *)
Definition drifting : string -> R -> string -> string -> string -> state :=
  fun _ et _ _ _ => mkstate (mk3 1 et 2) (mk3 3 4 0).

Definition const_utc : R -> string -> Z -> string :=
  fun _ _ _ => "2025 JAN 01 00:00:00"%string.

Definition const_et : string -> R := fun _ => 0.

(** Splits an equation between tuples of lists into its entries. *)
Ltac entries :=
  repeat match goal with
         | |- (_, _) = (_, _) => f_equal
         | |- _ :: _ = _ :: _ => f_equal
         end.

(** ** Vector algebra *)

Lemma vec3_eq (a b : vec3) :
  c0 a = c0 b -> c1 a = c1 b -> c2 a = c2 b -> a = b.
Proof. destruct a, b; simpl; intros; subst; reflexivity. Qed.

Lemma dot_self_nonneg (v : vec3) : 0 <= dot v v.
Proof. unfold dot. nra. Qed.

Lemma norm_nonneg (v : vec3) : 0 <= norm v.
Proof. apply sqrt_pos. Qed.

Lemma norm_sqr (v : vec3) : norm v * norm v = dot v v.
Proof. unfold norm. apply sqrt_sqrt, dot_self_nonneg. Qed.

Lemma dot_self_zero (v : vec3) : dot v v = 0 -> v = zero3.
Proof.
  unfold dot. intros H. apply vec3_eq; simpl; nra.
Qed.

Lemma norm_zero_iff (v : vec3) : norm v = 0 <-> v = zero3.
Proof.
  split.
  - intros H. apply dot_self_zero. rewrite <- norm_sqr, H. ring.
  - intros ->. unfold norm, dot. simpl.
    replace (0 * 0 + 0 * 0 + 0 * 0) with 0 by ring. apply sqrt_0.
Qed.

Lemma norm_pos (v : vec3) : v <> zero3 -> 0 < norm v.
Proof.
  intros H. destruct (norm_nonneg v) as [Hlt | Heq]; [exact Hlt|].
  exfalso. apply H, norm_zero_iff. symmetry. exact Heq.
Qed.

Lemma norm_of_unit (v : vec3) : dot v v = 1 -> norm v = 1.
Proof. intros H. unfold norm. rewrite H. apply sqrt_1. Qed.

Lemma dot_comm (a b : vec3) : dot a b = dot b a.
Proof. unfold dot. ring. Qed.

Lemma dot_vdiv_l (a b : vec3) (k : R) : dot (vdiv a k) b = dot a b / k.
Proof. unfold dot, vdiv, Rdiv. simpl. ring. Qed.

Lemma dot_vdiv_r (a b : vec3) (k : R) : dot a (vdiv b k) = dot a b / k.
Proof. unfold dot, vdiv, Rdiv. simpl. ring. Qed.

Lemma vdiv_one (v : vec3) : vdiv v 1 = v.
Proof. apply vec3_eq; unfold vdiv; simpl; field. Qed.

Lemma dot_cross_l (a b : vec3) : dot a (cross a b) = 0.
Proof. unfold dot, cross. simpl. ring. Qed.

Lemma dot_cross_r (a b : vec3) : dot b (cross a b) = 0.
Proof. unfold dot, cross. simpl. ring. Qed.

Lemma triple_product (a b c : vec3) :
  dot a (cross b c) = dot (cross a b) c.
Proof. unfold dot, cross. simpl. ring. Qed.

(** Lagrange's identity. *)
Lemma cross_dot_self (a b : vec3) :
  dot (cross a b) (cross a b) = dot a a * dot b b - dot a b * dot a b.
Proof. unfold dot, cross. simpl. ring. Qed.

(** The triple product expansion of [a × (b × a)]. *)
Lemma cross_cross (a b : vec3) :
  cross a (cross b a) = vsub (vscale (dot a a) b) (vscale (dot a b) a).
Proof. apply vec3_eq; unfold cross, vsub, vscale, dot; simpl; ring. Qed.

Lemma vdiv_norm_unit (v : vec3) :
  v <> zero3 -> dot (vdiv v (norm v)) (vdiv v (norm v)) = 1.
Proof.
  intros H. pose proof (norm_pos v H) as Hn.
  rewrite dot_vdiv_l, dot_vdiv_r, <- norm_sqr. field. lra.
Qed.

Lemma vhat_some (v : vec3) :
  v <> zero3 -> vhat v = Some (vdiv v (norm v)).
Proof.
  intros H. unfold vhat. destruct (Req_dec_T (norm v) 0) as [E | _].
  - exfalso. apply H, norm_zero_iff, E.
  - reflexivity.
Qed.

Lemma vhat_none (v : vec3) : v = zero3 -> vhat v = None.
Proof.
  intros H. unfold vhat. destruct (Req_dec_T (norm v) 0) as [_ | N].
  - reflexivity.
  - exfalso. apply N, norm_zero_iff, H.
Qed.

Lemma sp_vhat_nonzero (v : vec3) :
  v <> zero3 -> sp_vhat v = vdiv v (norm v).
Proof.
  intros H. unfold sp_vhat. destruct (Rlt_dec 0 (norm v)) as [_ | N].
  - reflexivity.
  - exfalso. apply N, norm_pos, H.
Qed.

(** A unit [x] and a unit [z] orthogonal to it are completed by [z × x]
    to a right-handed orthonormal triple. *)
Lemma frame_completion (x z : vec3) :
  dot x x = 1 -> dot z z = 1 -> dot x z = 0 ->
  dot (cross z x) (cross z x) = 1 /\
  dot x (cross z x) = 0 /\
  dot (cross z x) z = 0 /\
  cross x (cross z x) = z.
Proof.
  intros Hx Hz Hxz. repeat split.
  - rewrite cross_dot_self, Hx, Hz, (dot_comm z x), Hxz. ring.
  - apply dot_cross_r.
  - rewrite dot_comm. apply dot_cross_l.
  - rewrite cross_cross, Hx, Hxz.
    apply vec3_eq; unfold vsub, vscale; simpl; ring.
Qed.

(** The radial and normal unit vectors of a non-degenerate state. *)
Lemma radial_normal_units (r v : vec3) :
  r <> zero3 -> cross r v <> zero3 ->
  let x := vdiv r (norm r) in
  let z := vdiv (cross r v) (norm (cross r v)) in
  dot x x = 1 /\ dot z z = 1 /\ dot x z = 0.
Proof.
  intros Hr Hc x z. subst x z. repeat split.
  - apply vdiv_norm_unit, Hr.
  - apply vdiv_norm_unit, Hc.
  - rewrite dot_vdiv_l, dot_vdiv_r, dot_cross_l.
    pose proof (norm_pos _ Hr). pose proof (norm_pos _ Hc). field. lra.
Qed.

(** ** The EMBR basis *)

Lemma embr_matrix_valid (st : state) :
  nondegenerate st ->
  embr_rows st (embr_matrix st) /\ orthonormal (embr_matrix st) /\
  right_handed (embr_matrix st) /\ is_rotation (embr_matrix st).
Proof.
  intros [Hr Hc].
  destruct (radial_normal_units _ _ Hr Hc) as (Hx & Hz & Hxz).
  destruct (frame_completion _ _ Hx Hz Hxz) as (Hy & Hxy & Hyz & Hrh).
  split; [| split; [| split]].
  - unfold embr_rows, embr_matrix. simpl. repeat split.
  - unfold orthonormal, embr_matrix. simpl.
    repeat split; auto using norm_of_unit.
  - exact Hrh.
  - unfold is_rotation, det, embr_matrix. simpl. repeat split; auto.
    rewrite triple_product, Hrh. exact Hz.
Qed.

Lemma get_embr_transform_value spkezr (et : R) :
  let st := spkezr "MOON"%string et "J2000"%string "NONE"%string "EMB"%string in
  nondegenerate st ->
  get_embr_transform spkezr et = Some (embr_matrix st).
Proof.
  intros st [Hr Hc]. unfold get_embr_transform, embr_matrix. fold st.
  set (x := vdiv (pos st) (norm (pos st))).
  set (z := vdiv (cross (pos st) (vel st)) (norm (cross (pos st) (vel st)))).
  destruct (radial_normal_units _ _ Hr Hc) as (Hx & Hz & Hxz).
  fold x z in Hx, Hz, Hxz.
  destruct (frame_completion x z Hx Hz Hxz) as (Hy & _).
  rewrite (vhat_some _ Hr). simpl.
  rewrite (vhat_some _ Hc). simpl. fold x z.
  assert (Hn : norm (cross z x) = 1) by (apply norm_of_unit, Hy).
  unfold vhat. rewrite Hn.
  destruct (Req_dec_T 1 0) as [E | _]; [lra|].
  simpl. rewrite vdiv_one. reflexivity.
Qed.

Lemma xfm_manual_value spkezr utc2et :
  let st := spkezr "MOON"%string (test_et utc2et) "J2000"%string
                   "NONE"%string "EMB"%string in
  nondegenerate st ->
  xfm_manual spkezr utc2et = embr_matrix st.
Proof.
  intros st [Hr Hc]. unfold xfm_manual, embr_matrix. fold st.
  rewrite (sp_vhat_nonzero _ Hr), (sp_vhat_nonzero _ Hc). reflexivity.
Qed.

(** The matrix sends [r] itself to [(|r|, 0, 0)]. *)
Lemma embr_matrix_on_r (st : state) :
  pos st <> zero3 ->
  matvec (embr_matrix st) (pos st) = mk3 (norm (pos st)) 0 0.
Proof.
  destruct st as [r v]. simpl. intros Hr. pose proof (norm_pos r Hr) as Hn.
  unfold matvec, embr_matrix. simpl. apply vec3_eq; simpl.
  - rewrite dot_vdiv_l, <- norm_sqr. field. lra.
  - unfold dot, cross, vdiv, Rdiv. simpl. ring.
  - rewrite dot_vdiv_l.
    replace (dot (cross r v) r) with 0
      by (unfold dot, cross; simpl; ring).
    unfold Rdiv. ring.
Qed.

(** C1: for every position r and velocity v with r nonzero and r × v
    nonzero, the basis built by [get_embr_transform], and by the inline
    construction of test_transform.py, is X = normalize(r),
    Z = normalize(r × v), Y = Z × X; it is orthonormal (unit norms, zero
    pairwise dot products) and right-handed (X × Y = Z), and the matrix
    with rows X, Y, Z is a rotation matrix. *)
Theorem C1_embr_basis_is_rotation spkezr utc2et (et : R) :
  let st := spkezr "MOON"%string et "J2000"%string "NONE"%string "EMB"%string in
  let st' := spkezr "MOON"%string (test_et utc2et) "J2000"%string
                    "NONE"%string "EMB"%string in
  (nondegenerate st ->
   exists M, get_embr_transform spkezr et = Some M /\
             embr_rows st M /\ orthonormal M /\ right_handed M /\
             is_rotation M) /\
  (nondegenerate st' ->
   let M := xfm_manual spkezr utc2et in
   embr_rows st' M /\ orthonormal M /\ right_handed M /\ is_rotation M).
Proof.
  intros st st'. split.
  - intros H. eexists. split.
    + apply get_embr_transform_value, H.
    + apply embr_matrix_valid, H.
  - intros H M. unfold M. rewrite (xfm_manual_value _ _ H).
    apply embr_matrix_valid, H.
Qed.

Lemma circular_moon_nondegenerate (targ : string) (et : R) (f a o : string) :
  nondegenerate (circular_moon targ et f a o).
Proof.
  split; simpl; intros H.
  - apply (f_equal c0) in H. simpl in H. lra.
  - apply (f_equal c2) in H. simpl in H. lra.
Qed.

Lemma C1_embr_basis_is_rotation_witness :
  (exists M, get_embr_transform circular_moon 0 = Some M /\
             embr_rows (mkstate (mk3 1 0 0) (mk3 0 1 0)) M /\
             orthonormal M /\ right_handed M /\ is_rotation M) /\
  (let M := xfm_manual circular_moon const_et in
   embr_rows (mkstate (mk3 1 0 0) (mk3 0 1 0)) M /\
   orthonormal M /\ right_handed M /\ is_rotation M).
Proof.
  destruct (C1_embr_basis_is_rotation circular_moon const_et 0) as [A B].
  split.
  - apply A, circular_moon_nondegenerate.
  - apply B, circular_moon_nondegenerate.
Defined.

(** C2: for every position r and velocity v with r nonzero and r × v
    nonzero, the matrix built from (r, v) sends r itself to the vector
    (|r|, 0, 0): the Y and Z components are zero and the X component is
    the norm of r.  Both nrho_plot.py's [r_moon_embr] and
    test_transform.py's [r_embr_manual]. *)
Theorem C2_reference_on_x_axis spkezr utc2et (et : R) :
  let st := spkezr "MOON"%string et "J2000"%string "NONE"%string "EMB"%string in
  let st' := spkezr "MOON"%string (test_et utc2et) "J2000"%string
                    "NONE"%string "EMB"%string in
  (nondegenerate st ->
   r_moon_embr spkezr et = Some (mk3 (norm (pos st)) 0 0)) /\
  (nondegenerate st' ->
   r_embr_manual spkezr utc2et = mk3 (norm (pos st')) 0 0).
Proof.
  intros st st'. split; intros H.
  - unfold r_moon_embr. rewrite (get_embr_transform_value _ _ H). simpl.
    f_equal. apply embr_matrix_on_r, H.
  - unfold r_embr_manual. rewrite (xfm_manual_value _ _ H).
    apply embr_matrix_on_r, H.
Qed.

Lemma C2_reference_on_x_axis_witness :
  r_moon_embr circular_moon 0 = Some (mk3 (norm (mk3 1 0 0)) 0 0) /\
  r_embr_manual circular_moon const_et = mk3 (norm (mk3 1 0 0)) 0 0.
Proof.
  destruct (C2_reference_on_x_axis circular_moon const_et 0) as [A B].
  split.
  - apply A, circular_moon_nondegenerate.
  - apply B, circular_moon_nondegenerate.
Defined.

(** C8: when r is nonzero and r × v is nonzero, each of the three
    normalizations in [get_embr_transform] divides by a strictly positive
    norm and the function returns a matrix; when r × v is the zero
    vector the divisor of the Z normalization is zero and the result is
    undefined. *)
Theorem C8_embr_totality spkezr (et : R) :
  let st := spkezr "MOON"%string et "J2000"%string "NONE"%string "EMB"%string in
  let r := pos st in
  let v := vel st in
  (nondegenerate st ->
   0 < norm r /\ 0 < norm (cross r v) /\
   (exists x_hat z_hat,
       vhat r = Some x_hat /\ vhat (cross r v) = Some z_hat /\
       0 < norm (cross z_hat x_hat)) /\
   exists M, get_embr_transform spkezr et = Some M) /\
  (cross r v = zero3 ->
   norm (cross r v) = 0 /\ vhat (cross r v) = None /\
   get_embr_transform spkezr et = None).
Proof.
  intros st r v. split.
  - intros H. pose proof H as [Hr Hc]. fold r v in Hr, Hc.
    split; [apply norm_pos, Hr|].
    split; [apply norm_pos, Hc|].
    split.
    + exists (vdiv r (norm r)), (vdiv (cross r v) (norm (cross r v))).
      split; [apply vhat_some, Hr|].
      split; [apply vhat_some, Hc|].
      destruct (radial_normal_units _ _ Hr Hc) as (Hx & Hz & Hxz).
      destruct (frame_completion _ _ Hx Hz Hxz) as (Hy & _).
      rewrite (norm_of_unit _ Hy). lra.
    + eexists. apply get_embr_transform_value, H.
  - intros Hz. split; [apply norm_zero_iff, Hz|].
    split; [apply vhat_none, Hz|].
    unfold get_embr_transform. fold st r v.
    destruct (vhat r); simpl; [|reflexivity].
    rewrite (vhat_none _ Hz). reflexivity.
Qed.

Lemma C8_embr_totality_witness :
  (0 < norm (mk3 1 0 0) /\
   0 < norm (cross (mk3 1 0 0) (mk3 0 1 0)) /\
   (exists x_hat z_hat,
       vhat (mk3 1 0 0) = Some x_hat /\
       vhat (cross (mk3 1 0 0) (mk3 0 1 0)) = Some z_hat /\
       0 < norm (cross z_hat x_hat)) /\
   exists M, get_embr_transform circular_moon 0 = Some M) /\
  (norm (cross (mk3 1 0 0) (mk3 2 0 0)) = 0 /\
   vhat (cross (mk3 1 0 0) (mk3 2 0 0)) = None /\
   get_embr_transform radial_moon 0 = None).
Proof.
  split.
  - apply (proj1 (C8_embr_totality circular_moon 0)),
      circular_moon_nondegenerate.
  - apply (proj2 (C8_embr_totality radial_moon 0)).
    apply vec3_eq; simpl; ring.
Defined.

(** ** Collinear libration points *)

Lemma norm_on_x (a : R) : 0 <= a -> norm (mk3 a 0 0) = a.
Proof.
  intros Ha. unfold norm, dot. simpl.
  replace (a * a + 0 * 0 + 0 * 0) with (a * a) by ring.
  apply sqrt_square, Ha.
Qed.

Lemma Rpower_pos (x y : R) : 0 < Rpower x y.
Proof. unfold Rpower. apply exp_pos. Qed.

Lemma nrho_r_L2_value spkezr (et_mid : R) :
  let st := spkezr "MOON"%string et_mid "J2000"%string "NONE"%string
                   "EMB"%string in
  nondegenerate st ->
  nrho_r_L2 spkezr et_mid = Some (norm (pos st) * Rpower (mu / 3) (1 / 3)).
Proof.
  intros st H. unfold nrho_r_L2.
  rewrite (get_embr_transform_value _ _ H). simpl. fold st.
  rewrite (embr_matrix_on_r st (proj1 H)).
  rewrite (norm_on_x _ (norm_nonneg _)).
  do 3 f_equal; lra.
Qed.

Lemma earth_moon_nondegenerate (et : R) (f a o : string) :
  nondegenerate (earth_moon "MOON" et f a o).
Proof.
  split; simpl; intros H.
  - apply (f_equal c0) in H. simpl in H. lra.
  - apply (f_equal c2) in H. simpl in H. lra.
Qed.

(** C3 as stated fails for nrho_plot.py: with the Moon 81 units from the
    barycentre and the Earth 1 unit on the other side, the Earth-Moon
    separation is 82 but the script scales the cube-root factor by 81. *)
Lemma C3_nrho_uses_barycentric_distance :
  separation earth_moon "MOON" "EARTH" 0 "J2000" "EMB" = 82 /\
  nrho_r_L2 earth_moon 0 = Some (81 * Rpower (mu / 3) (1 / 3)) /\
  nrho_r_L2 earth_moon 0 <>
  Some (separation earth_moon "MOON" "EARTH" 0 "J2000" "EMB"
        * Rpower (mu / 3) (1 / 3)).
Proof.
  assert (S : separation earth_moon "MOON" "EARTH" 0 "J2000" "EMB" = 82).
  { unfold separation, earth_moon, vsub. simpl.
    replace (81 - -1) with 82 by ring.
    replace (0 - 0) with 0 by ring.
    apply norm_on_x. lra. }
  assert (V : nrho_r_L2 earth_moon 0 = Some (81 * Rpower (mu / 3) (1 / 3))).
  { rewrite (nrho_r_L2_value earth_moon 0 (earth_moon_nondegenerate _ _ _ _)).
    simpl. rewrite norm_on_x by lra. reflexivity. }
  split; [exact S|]. split; [exact V|].
  rewrite V, S. intros H. injection H as H.
  pose proof (Rpower_pos (mu / 3) (1 / 3)). nra.
Qed.

(** C3 (amended): the Sun-Earth L1/L2 distances of jwst.py (one per
    epoch) and genesis_halo_plot.py (mid epoch) equal
    R · (m_small / (3·(m_large + m_small)))^(1/3) with R the Earth-Sun
    distance at that epoch, m_small = gm_earth and m_large = gm_sun; the
    Moon-L2 distance of nrho_plot.py equals the same expression with R
    the distance from the Earth-Moon barycentre to the Moon and with the
    hard-coded mass ratio mu for m_small / (m_large + m_small). *)
Theorem C3_libration_distances spkezr (ets : list R)
        (et_start et_end et_mid m_small m_large : R) :
  let sun et := spkezr "SUN"%string et "GSE"%string "NONE"%string
                       "EARTH"%string in
  let moon := spkezr "MOON"%string et_mid "J2000"%string "NONE"%string
                     "EMB"%string in
  jwst_d_SE_L_arr spkezr ets =
    map (fun et => hill_distance (norm (pos (sun et))) gm_earth gm_sun) ets /\
  genesis_d_SE_L spkezr et_start et_end =
    hill_distance (norm (pos (sun (0.5 * (et_start + et_end)))))
                  gm_earth gm_sun /\
  (nondegenerate moon ->
   m_large + m_small <> 0 -> m_small / (m_large + m_small) = mu ->
   nrho_r_L2 spkezr et_mid =
     Some (hill_distance (norm (pos moon)) m_small m_large)).
Proof.
  intros sun moon. split; [| split].
  - unfold jwst_d_SE_L_arr, jwst_R_se_list. rewrite map_map.
    apply map_ext. intros et. unfold hill_distance. fold (sun et).
    replace 3.0 with 3 by lra. replace 1.0 with 1 by lra. reflexivity.
  - unfold genesis_d_SE_L, genesis_et_mid, hill_distance.
    fold (sun (0.5 * (et_start + et_end))).
    replace 3.0 with 3 by lra. replace 1.0 with 1 by lra. reflexivity.
  - intros H Hm Hmu. rewrite (nrho_r_L2_value _ _ H). fold moon.
    unfold hill_distance. do 3 f_equal. rewrite <- Hmu. field. exact Hm.
Qed.

Lemma C3_libration_distances_witness :
  nrho_r_L2 earth_moon 0 =
    Some (hill_distance (norm (mk3 81 0 0)) mu (1 - mu)).
Proof.
  apply (proj2 (proj2 (C3_libration_distances earth_moon [] 0 0 0 mu (1 - mu)))).
  - apply earth_moon_nondegenerate.
  - lra.
  - field. lra.
Defined.

(** ** Triangular libration points *)

Lemma l4_l5_loop (cos_t sin_t : R) (l : list (R * R * R)) :
  forall a1 a2 a3 b1 b2 b3 : list R,
    fold_left (l4_l5_step cos_t sin_t) l ((a1, a2, a3), (b1, b2, b3)) =
    ((a1 ++ map c0 (map (l4_point cos_t sin_t) l),
      a2 ++ map c1 (map (l4_point cos_t sin_t) l),
      a3 ++ map c2 (map (l4_point cos_t sin_t) l)),
     (b1 ++ map c0 (map (l5_point cos_t sin_t) l),
      b2 ++ map c1 (map (l5_point cos_t sin_t) l),
      b3 ++ map c2 (map (l5_point cos_t sin_t) l))).
Proof.
  induction l as [| [[xi yi] zi] l IH]; intros a1 a2 a3 b1 b2 b3; simpl.
  - now rewrite !app_nil_r.
  - rewrite IH, <- !app_assoc. reflexivity.
Qed.

Lemma compute_l4_l5_columns (jx jy jz : list R) (deg : R) :
  compute_l4_l5_from_jupiter jx jy jz deg =
  (columns (map (l4_point (cos (deg2rad deg)) (sin (deg2rad deg)))
                (zip3 jx jy jz)),
   columns (map (l5_point (cos (deg2rad deg)) (sin (deg2rad deg)))
                (zip3 jx jy jz))).
Proof. unfold compute_l4_l5_from_jupiter. now rewrite l4_l5_loop. Qed.

Lemma l4_point_rotz (theta : R) (p : R * R * R) :
  l4_point (cos theta) (sin theta) p = matvec (rotz theta) (point p).
Proof.
  destruct p as [[x y] z].
  apply vec3_eq; unfold matvec, rotz, dot; simpl; ring.
Qed.

Lemma l5_point_rotz (theta : R) (p : R * R * R) :
  l5_point (cos theta) (sin theta) p = matvec (rotz (- theta)) (point p).
Proof.
  destruct p as [[x y] z].
  apply vec3_eq; unfold matvec, rotz, dot; simpl;
    rewrite ?cos_neg, ?sin_neg; ring.
Qed.

Lemma deg2rad_60 : deg2rad 60 = PI / 3.
Proof. unfold deg2rad. field. Qed.

Lemma sqrt3_bounds : 0.866 < sqrt 3 / 2 < 0.8661.
Proof.
  assert (H3 : 0 <= 3) by lra.
  pose proof (sqrt_sqrt 3 H3) as Hs. pose proof (sqrt_pos 3) as Hp.
  split; nra.
Qed.

(** C4: [compute_l4_l5_from_jupiter] (with its default angle) rotates
    every input vector by +60° (L4) and by -60° (L5) about the +Z axis;
    applied to (R, 0, 0) it yields (R·cos 60°, ±R·sin 60°, 0), that is
    (0.5·R, ±(√3/2)·R, 0) with √3/2 = 0.866... *)
Theorem C4_l4_l5_rotation (jx jy jz : list R) (R0 : R) :
  compute_l4_l5_from_jupiter jx jy jz 60 =
    (columns (map (fun p => matvec (rotz (PI / 3)) (point p))
                  (zip3 jx jy jz)),
     columns (map (fun p => matvec (rotz (- (PI / 3))) (point p))
                  (zip3 jx jy jz))) /\
  compute_l4_l5_from_jupiter [R0] [0] [0] 60 =
    (([R0 * cos (PI / 3)], [R0 * sin (PI / 3)], [0]),
     ([R0 * cos (PI / 3)], [- (R0 * sin (PI / 3))], [0])) /\
  compute_l4_l5_from_jupiter [R0] [0] [0] 60 =
    (([0.5 * R0], [sqrt 3 / 2 * R0], [0]),
     ([0.5 * R0], [- (sqrt 3 / 2 * R0)], [0])) /\
  0.866 < sqrt 3 / 2 < 0.8661.
Proof.
  split; [| split; [| split]].
  - rewrite compute_l4_l5_columns, deg2rad_60.
    f_equal; f_equal; apply map_ext; intros p.
    + apply l4_point_rotz.
    + apply l5_point_rotz.
  - rewrite compute_l4_l5_columns, deg2rad_60. unfold columns. simpl.
    entries; ring.
  - rewrite compute_l4_l5_columns, deg2rad_60. unfold columns. simpl.
    rewrite cos_PI3, sin_PI3. entries; lra.
  - exact sqrt3_bounds.
Qed.

Lemma nth_error_zip3 {A B C : Type} (l1 : list A) (l2 : list B) (l3 : list C) :
  forall (i : nat) (a : A) (b : B) (c : C),
    nth_error l1 i = Some a -> nth_error l2 i = Some b ->
    nth_error l3 i = Some c ->
    nth_error (zip3 l1 l2 l3) i = Some (a, b, c).
Proof.
  revert l2 l3.
  induction l1 as [| a1 l1 IH]; intros l2 l3 i a b c H1 H2 H3.
  - destruct i; discriminate.
  - destruct l2 as [| b1 l2]; [destruct i; discriminate|].
    destruct l3 as [| c1 l3]; [destruct i; discriminate|].
    destruct i as [| i]; simpl in *.
    + congruence.
    + apply IH; assumption.
Qed.

Lemma rotation_keeps_norm (c s x y z : R) :
  c * c + s * s = 1 ->
  norm (l4_point c s (x, y, z)) = norm (mk3 x y z) /\
  norm (l5_point c s (x, y, z)) = norm (mk3 x y z).
Proof.
  intros H. unfold norm, dot. simpl. split; f_equal.
  - replace ((x * c - y * s) * (x * c - y * s) +
             (x * s + y * c) * (x * s + y * c) + z * z)
      with ((x * x + y * y) * (c * c + s * s) + z * z) by ring.
    rewrite H. ring.
  - replace ((x * c + y * s) * (x * c + y * s) +
             (- x * s + y * c) * (- x * s + y * c) + z * z)
      with ((x * x + y * y) * (c * c + s * s) + z * z) by ring.
    rewrite H. ring.
Qed.

(** C9: for every input sequence and every index i, the i-th L4 and L5
    points have the same Euclidean norm as the i-th input vector, and
    their Z components are the input's Z component. *)
Theorem C9_l4_l5_norm_and_z (jx jy jz : list R) (deg : R) (i : nat)
        (x y z : R) :
  nth_error jx i = Some x -> nth_error jy i = Some y ->
  nth_error jz i = Some z ->
  let l4 := fst (compute_l4_l5_from_jupiter jx jy jz deg) in
  let l5 := snd (compute_l4_l5_from_jupiter jx jy jz deg) in
  exists x4 y4 x5 y5 : R,
    nth_error (fst (fst l4)) i = Some x4 /\
    nth_error (snd (fst l4)) i = Some y4 /\
    nth_error (snd l4) i = Some z /\
    nth_error (fst (fst l5)) i = Some x5 /\
    nth_error (snd (fst l5)) i = Some y5 /\
    nth_error (snd l5) i = Some z /\
    norm (mk3 x4 y4 z) = norm (mk3 x y z) /\
    norm (mk3 x5 y5 z) = norm (mk3 x y z).
Proof.
  intros Hx Hy Hz l4 l5. subst l4 l5.
  rewrite compute_l4_l5_columns. unfold columns. simpl.
  pose proof (nth_error_zip3 _ _ _ _ _ _ _ Hx Hy Hz) as Hp.
  set (c := cos (deg2rad deg)). set (s := sin (deg2rad deg)).
  assert (Hcs : c * c + s * s = 1).
  { pose proof (sin2_cos2 (deg2rad deg)) as H. unfold Rsqr in H.
    fold c s in H. lra. }
  destruct (rotation_keeps_norm c s x y z Hcs) as [N4 N5].
  exists (x * c - y * s), (x * s + y * c), (x * c + y * s), (- x * s + y * c).
  rewrite !map_map.
  repeat split;
    try (erewrite map_nth_error by exact Hp; reflexivity);
    assumption.
Qed.

Lemma C9_l4_l5_norm_and_z_witness :
  exists x4 y4 x5 y5 : R,
    nth_error (fst (fst (fst (compute_l4_l5_from_jupiter [3] [4] [5] 60))))
              0 = Some x4 /\
    nth_error (snd (fst (fst (compute_l4_l5_from_jupiter [3] [4] [5] 60))))
              0 = Some y4 /\
    nth_error (snd (fst (compute_l4_l5_from_jupiter [3] [4] [5] 60)))
              0 = Some 5 /\
    nth_error (fst (fst (snd (compute_l4_l5_from_jupiter [3] [4] [5] 60))))
              0 = Some x5 /\
    nth_error (snd (fst (snd (compute_l4_l5_from_jupiter [3] [4] [5] 60))))
              0 = Some y5 /\
    nth_error (snd (snd (compute_l4_l5_from_jupiter [3] [4] [5] 60)))
              0 = Some 5 /\
    norm (mk3 x4 y4 5) = norm (mk3 3 4 5) /\
    norm (mk3 x5 y5 5) = norm (mk3 3 4 5).
Proof.
  apply (C9_l4_l5_norm_and_z [3] [4] [5] 60 0 3 4 5); reflexivity.
Defined.

(** ** The Voyager state sampler *)

(** The loop appends, for the retained epochs and in their order, the
    entries of the raw sample. *)
Lemma sample_loop spkezr et2utc (sc_id : body_id) (et_array : list R) :
  forall (x y z speeds : list R) (utcs : list string),
    fold_left (sample_step spkezr et2utc (str sc_id)) et_array
              (x, y, z, speeds, utcs) =
    let kept := filter (retained spkezr sc_id) et_array in
    (x ++ map (fun et => c0 (pos (vger_state spkezr sc_id et))) kept,
     y ++ map (fun et => c1 (pos (vger_state spkezr sc_id et))) kept,
     z ++ map (fun et => c2 (pos (vger_state spkezr sc_id et))) kept,
     speeds ++ map (fun et => norm (vel (vger_state spkezr sc_id et))) kept,
     utcs ++ map (fun et => et2utc et "C"%string 0%Z) kept).
Proof.
  induction et_array as [| et ets IH]; intros x y z speeds utcs; simpl.
  - now rewrite !app_nil_r.
  - destruct (retained spkezr sc_id et) eqn:E;
      unfold retained, vger_state in E;
      destruct (Rle_dec (c1 (pos (spkezr (str sc_id) et "VGER"%string
                                         "NONE"%string "SUN"%string))) 6e9);
      try discriminate E; rewrite IH; simpl.
    + rewrite <- !app_assoc. reflexivity.
    + reflexivity.
Qed.

Lemma sample_object_value spkezr et2utc (sc_id : body_id)
      (et_array : list R) :
  sample_object spkezr et2utc sc_id et_array =
  let kept := filter (retained spkezr sc_id) et_array in
  (map (fun et => c0 (pos (vger_state spkezr sc_id et))) kept,
   map (fun et => c1 (pos (vger_state spkezr sc_id et))) kept,
   map (fun et => c2 (pos (vger_state spkezr sc_id et))) kept,
   map (fun et => norm (vel (vger_state spkezr sc_id et))) kept,
   map (fun et => et2utc et "C"%string 0%Z) kept).
Proof. unfold sample_object. rewrite sample_loop. reflexivity. Qed.

Lemma retained_iff spkezr (sc_id : body_id) (et : R) :
  retained spkezr sc_id et = true <->
  c1 (pos (vger_state spkezr sc_id et)) <= 6e9.
Proof.
  unfold retained.
  destruct (Rle_dec (c1 (pos (vger_state spkezr sc_id et))) 6e9);
    split; intros; auto; try discriminate; contradiction.
Qed.

Lemma dropped_iff spkezr (sc_id : body_id) (et : R) :
  retained spkezr sc_id et = false <->
  c1 (pos (vger_state spkezr sc_id et)) > 6e9.
Proof.
  unfold retained.
  destruct (Rle_dec (c1 (pos (vger_state spkezr sc_id et))) 6e9);
    split; intros; auto; try discriminate; lra.
Qed.

Lemma filter_subseq {A : Type} (f : A -> bool) (l : list A) :
  subseq (filter f l) l.
Proof.
  induction l as [| a l IH]; simpl.
  - constructor.
  - destruct (f a); constructor; exact IH.
Qed.

Lemma Rabs_le_bound (a b : R) : ~ Rabs a > b -> a <= b.
Proof.
  intros H. pose proof (Rle_abs a). lra.
Qed.

(** C7 as stated fails: a sample 7e9 km out along X, and one 7e9 km out
    along -Y, have a coordinate beyond the threshold in magnitude and
    are both kept. *)
Lemma C7_only_positive_y_is_tested :
  exceeds_threshold (mk3 7e9 0 0) /\
  sample_object far_x const_utc (IntId (-31)) [0] =
    ([7e9], [0], [0], [norm (mk3 3 4 0)], ["2025 JAN 01 00:00:00"%string]) /\
  exceeds_threshold (mk3 0 (- 7e9) 0) /\
  sample_object far_neg_y const_utc (IntId (-31)) [0] =
    ([0], [- 7e9], [0], [norm (mk3 3 4 0)], ["2025 JAN 01 00:00:00"%string]).
Proof.
  split; [| split; [| split]].
  - left. simpl. rewrite Rabs_right; lra.
  - unfold sample_object, sample_step, far_x. simpl.
    destruct (Rle_dec 0 6e9) as [_ | N]; [reflexivity | lra].
  - right; left. simpl. rewrite Rabs_left; lra.
  - unfold sample_object, sample_step, far_neg_y. simpl.
    destruct (Rle_dec (- 7e9) 6e9) as [_ | N]; [reflexivity | lra].
Qed.

(** C7 (amended): a sample is dropped exactly when its Y coordinate is
    greater than 6e9 km (X and Z are not tested, and Y is compared with
    its sign); every sample whose coordinates are all within the
    threshold in magnitude is retained; and the output is the raw
    per-epoch samples of the retained epochs, unaltered and in order. *)
Theorem C7_sample_filter spkezr et2utc (sc_id : body_id) (et_array : list R) :
  let st := vger_state spkezr sc_id in
  let kept := filter (retained spkezr sc_id) et_array in
  (forall et, In et et_array ->
              (~ In et kept <-> c1 (pos (st et)) > 6e9)) /\
  (forall et, In et et_array -> ~ exceeds_threshold (pos (st et)) ->
              In et kept) /\
  sample_object spkezr et2utc sc_id et_array =
    (map (fun et => c0 (fst (fst (raw_sample spkezr et2utc sc_id et)))) kept,
     map (fun et => c1 (fst (fst (raw_sample spkezr et2utc sc_id et)))) kept,
     map (fun et => c2 (fst (fst (raw_sample spkezr et2utc sc_id et)))) kept,
     map (fun et => snd (fst (raw_sample spkezr et2utc sc_id et))) kept,
     map (fun et => snd (raw_sample spkezr et2utc sc_id et)) kept).
Proof.
  intros st kept. split; [| split].
  - intros et Hin. unfold kept. rewrite filter_In.
    unfold st. rewrite <- (dropped_iff spkezr sc_id et).
    destruct (retained spkezr sc_id et); split; intros H.
    + exfalso. apply H. split; [exact Hin | reflexivity].
    + discriminate.
    + reflexivity.
    + intros [_ E]. discriminate.
  - intros et Hin Hno. unfold kept. apply filter_In. split; [exact Hin|].
    apply retained_iff. apply Rabs_le_bound. intros H. apply Hno.
    right; left. exact H.
  - rewrite sample_object_value. reflexivity.
Qed.

Lemma C7_sample_filter_witness :
  In 1 (filter (retained drifting (StrId "EARTH")) [1; 7e9]) /\
  ~ In 7e9 (filter (retained drifting (StrId "EARTH")) [1; 7e9]).
Proof.
  destruct (C7_sample_filter drifting const_utc (StrId "EARTH") [1; 7e9])
    as (A & B & _).
  split.
  - apply B; [left; reflexivity|].
    unfold exceeds_threshold, drifting. simpl.
    rewrite !Rabs_right by lra. lra.
  - apply A; [right; left; reflexivity|].
    unfold drifting. simpl. lra.
Defined.

(** C10: [sample_object] returns five lists of one common length, at
    most the number of input epochs; there is a list of retained epochs,
    a subsequence of the input in its order, such that the i-th element of
    each of the five lists is computed from the i-th retained epoch. *)
Theorem C10_sample_lists_aligned spkezr et2utc (sc_id : body_id)
        (et_array : list R) :
  let st := vger_state spkezr sc_id in
  let '(x, y, z, speeds, utcs) :=
    sample_object spkezr et2utc sc_id et_array in
  List.length y = List.length x /\ List.length z = List.length x /\
  List.length speeds = List.length x /\ List.length utcs = List.length x /\
  (List.length x <= List.length et_array)%nat /\
  exists kept : list R,
    subseq kept et_array /\
    x = map (fun et => c0 (pos (st et))) kept /\
    y = map (fun et => c1 (pos (st et))) kept /\
    z = map (fun et => c2 (pos (st et))) kept /\
    speeds = map (fun et => norm (vel (st et))) kept /\
    utcs = map (fun et => et2utc et "C"%string 0%Z) kept.
Proof.
  intros st. rewrite sample_object_value. simpl.
  rewrite !length_map. repeat split.
  - apply filter_length_le.
  - exists (filter (retained spkezr sc_id) et_array).
    split; [apply filter_subseq|]. repeat split.
Qed.

(** ** Time grids *)

Module TimeGridFacts.

Import TimeGrid.
Local Open Scope Q_scope.

Lemma pos_nonzero (x : Q) : 0 < x -> ~ x == 0.
Proof. intros H E. rewrite E in H. apply (Qlt_irrefl 0), H. Qed.

Lemma of_nat_nonneg (i : nat) : 0 <= of_nat i.
Proof.
  unfold of_nat. change 0 with (inject_Z 0). rewrite <- Zle_Qle. lia.
Qed.

Lemma of_nat_lt (i j : nat) : (i < j)%nat -> of_nat i < of_nat j.
Proof. intros H. unfold of_nat. rewrite <- Zlt_Qlt. lia. Qed.

Lemma arange_length (start stop step : Q) :
  List.length (arange start stop step) =
  Z.to_nat (Qceiling ((stop - start) / step)).
Proof. unfold arange. now rewrite length_map, length_seq. Qed.

(** An index below the ceiling of [q] is below [q]. *)
Lemma below_ceiling (q : Q) (i : nat) :
  (i < Z.to_nat (Qceiling q))%nat -> of_nat i < q.
Proof.
  intros H. apply Qle_lt_trans with (inject_Z (Qceiling q - 1)).
  - unfold of_nat. rewrite <- Zle_Qle. lia.
  - apply Qceiling_lt.
Qed.

Lemma arange_bounds (start stop step t : Q) :
  0 < step -> In t (arange start stop step) -> start <= t /\ t < stop.
Proof.
  intros Hs Hin. unfold arange in Hin. apply in_map_iff in Hin.
  destruct Hin as (i & <- & Hi). apply in_seq in Hi.
  assert (Hlt : of_nat i < (stop - start) / step)
    by (apply below_ceiling; lia).
  pose proof (of_nat_nonneg i) as H0.
  assert (Hq : of_nat i * step < stop - start).
  { apply (Qmult_lt_compat_r _ _ step) in Hlt; [| exact Hs].
    assert (E : (stop - start) / step * step == stop - start)
      by (field; apply pos_nonzero, Hs).
    rewrite E in Hlt. exact Hlt. }
  assert (Hk : 0 <= of_nat i * step)
    by (apply Qmult_le_0_compat; [exact H0 | apply Qlt_le_weak, Hs]).
  clear Hlt H0 Hi. generalize dependent (of_nat i * step).
  intros p Hq Hk. split; lra.
Qed.

Lemma linspace_length (start stop : Q) (num : nat) :
  List.length (linspace start stop num) = num.
Proof.
  destruct num as [| [| d]]; [reflexivity | reflexivity |].
  unfold linspace. rewrite length_app, length_map, length_seq. simpl. lia.
Qed.

Lemma linspace_bounds (start stop : Q) (num : nat) (t : Q) :
  start <= stop -> In t (linspace start stop num) ->
  start <= t /\ t <= stop.
Proof.
  intros Hle Hin. destruct num as [| [| d]].
  - destruct Hin.
  - destruct Hin as [<- | []]. split; lra.
  - unfold linspace in Hin. apply in_app_iff in Hin.
    destruct Hin as [Hin | [<- | []]]; [| split; lra].
    apply in_map_iff in Hin. destruct Hin as (i & <- & Hi).
    apply in_seq in Hi.
    pose proof (of_nat_nonneg i) as H0.
    assert (Hd : of_nat i < of_nat (S d)) by (apply of_nat_lt; lia).
    assert (Hpos : 0 < of_nat (S d)) by lra.
    set (n := of_nat (S d)) in *. set (k := of_nat i) in *.
    assert (E : k * ((stop - start) / n) == (k / n) * (stop - start))
      by (field; apply pos_nonzero, Hpos).
    assert (Hk : 0 <= k / n /\ k / n <= 1).
    { split.
      - apply Qle_shift_div_l; lra.
      - apply Qle_shift_div_r; lra. }
    rewrite E. split; nra.
Qed.

Lemma floor_le_ceiling_le_succ (q : Q) :
  0 <= q ->
  (0 <= Qfloor q /\ Qfloor q <= Qceiling q <= Qfloor q + 1)%Z.
Proof.
  intros Hq. split; [| split].
  - change 0%Z with (Qfloor 0). apply Qfloor_resp_le, Hq.
  - rewrite Zle_Qle. apply Qle_floor_ceiling.
  - assert (H : inject_Z (Qceiling q - 1) < inject_Z (Qfloor q + 1))
      by (eapply Qlt_trans; [apply Qceiling_lt | apply Qlt_floor]).
    rewrite <- Zlt_Qlt in H. lia.
Qed.

Lemma elapsed_days_pos (et_start et_end : Q) :
  et_start < et_end -> 0 < (et_end - et_start) / 86400.0.
Proof.
  intros H. apply Qlt_shift_div_l; [reflexivity | lra].
Qed.

(** The grid of the spec's example: ten daily epochs over ten days. *)
Example vger_ets_ten_days :
  vger_ets 0 864000 =
  [0 + of_nat 0 * 86400.0; 0 + of_nat 1 * 86400.0; 0 + of_nat 2 * 86400.0;
   0 + of_nat 3 * 86400.0; 0 + of_nat 4 * 86400.0; 0 + of_nat 5 * 86400.0;
   0 + of_nat 6 * 86400.0; 0 + of_nat 7 * 86400.0; 0 + of_nat 8 * 86400.0;
   0 + of_nat 9 * 86400.0] /\
  vger_total_pts 0 864000 = 10%nat /\
  floor_count 0 864000 86400.0 = 10%nat.
Proof. repeat split. Qed.

(** C5 as stated fails: over 864001 seconds both grids have 11 epochs,
    while the floor of the elapsed days is 10. *)
Lemma C5_count_is_ceiling_not_floor :
  vger_total_pts 0 864001 = 11%nat /\
  List.length (jwst_ets 0 864001) = 11%nat /\
  floor_count 0 864001 86400.0 = 10%nat /\
  vger_total_pts 0 864001 <> floor_count 0 864001 86400.0.
Proof. repeat split. discriminate. Qed.

Lemma py_int_nonneg (q : Q) : 0 <= q -> MoreGrids.py_int q = Qfloor q /\ (0 <= Qfloor q)%Z.
Proof.
  intros H. unfold MoreGrids.py_int.
  rewrite (proj2 (Qle_bool_iff 0 q) H). split; [reflexivity|].
  change 0%Z with (Qfloor 0). apply Qfloor_resp_le, H.
Qed.

(** C5 (amended): for start < end, no epoch generated by a
    cadence-based grid exceeds the end bound.  The number of epochs is
    the ceiling of the elapsed duration divided by the cadence in
    vger.py ([np.arange]), jwst.py and lucy.py ([np.ceil]): the floor when
    the duration is a whole number of days, and otherwise the floor plus
    one.  It is the floor in the juice scripts, which truncate
    ([int(...)]): juice_cruise.py at one sample per day, and at
    [per_day] samples per day in general. *)
Theorem C5_time_grid (et_start et_end : Q) :
  et_start < et_end ->
  let n := Z.to_nat (Qceiling ((et_end - et_start) / 86400.0)) in
  let f := floor_count et_start et_end 86400.0 in
  vger_total_pts et_start et_end = n /\
  (forall t, In t (vger_ets et_start et_end) ->
             et_start <= t /\ t < et_end) /\
  List.length (jwst_ets et_start et_end) = n /\
  (forall t, In t (jwst_ets et_start et_end) ->
             et_start <= t /\ t <= et_end) /\
  (f <= n <= f + 1)%nat /\
  (forall k : Z, (et_end - et_start) / 86400.0 == inject_Z k -> n = f) /\
  ((forall k : Z, ~ (et_end - et_start) / 86400.0 == inject_Z k) ->
   n = (f + 1)%nat) /\
  (MoreGrids.lucy_total_pts et_start et_end = Z.of_nat n /\
   exists l, MoreGrids.lucy_ets et_start et_end = Some l /\
             List.length l = n /\
             forall t, In t l -> et_start <= t /\ t <= et_end) /\
  (MoreGrids.juice_cruise_total_pts et_start et_end = Z.of_nat f /\
   exists l, MoreGrids.juice_cruise_ets et_start et_end = Some l /\
             List.length l = f /\
             forall t, In t l -> et_start <= t /\ t <= et_end) /\
  (forall per_day, 0 < per_day ->
     let fp := Qfloor (per_day * (et_end - et_start) / 86400.0) in
     MoreGrids.juice_total_pts per_day et_start et_end = fp /\
     exists l, MoreGrids.juice_ets per_day et_start et_end = Some l /\
               List.length l = Z.to_nat fp /\
               forall t, In t l -> et_start <= t /\ t <= et_end).
Proof.
  intros Hlt n f.
  pose proof (elapsed_days_pos _ _ Hlt) as Hq.
  destruct (floor_le_ceiling_le_succ _ (Qlt_le_weak _ _ Hq)) as (F0 & FC & CF).
  split; [apply arange_length|].
  split; [intros t Ht; apply (arange_bounds _ _ 86400.0); [reflexivity | exact Ht]|].
  split; [apply linspace_length|].
  split.
  { intros t Ht. unfold jwst_ets in Ht.
    apply linspace_bounds in Ht; [lra | lra]. }
  split; [unfold n, f, floor_count; lia|].
  split.
  { intros k Hk. unfold n, f, floor_count.
    rewrite (Qceiling_comp _ _ Hk), (Qfloor_comp _ _ Hk).
    now rewrite Qceiling_Z, Qfloor_Z. }
  split.
  { intros Hk. unfold n, f, floor_count.
    assert (Qfloor ((et_end - et_start) / 86400.0)
            <> Qceiling ((et_end - et_start) / 86400.0)) as Hne.
    { intros E. apply (Hk (Qfloor ((et_end - et_start) / 86400.0))).
      apply Qle_antisym; [| apply Qfloor_le].
      rewrite E. apply Qle_ceiling. }
    lia. }
  split; [| split].
  - assert (E : MoreGrids.lucy_total_pts et_start et_end = Z.of_nat n)
      by (unfold MoreGrids.lucy_total_pts, n; cbv zeta; lia).
    split; [exact E|].
    exists (linspace et_start (et_start + (et_end - et_start)) n).
    split.
    + unfold MoreGrids.lucy_ets, MoreGrids.np_linspace. rewrite E.
      destruct (Z.of_nat n <? 0)%Z eqn:B; [lia|].
      now rewrite Nat2Z.id.
    + split; [apply linspace_length|].
      intros t Ht. apply linspace_bounds in Ht; lra.
  - destruct (py_int_nonneg _ (Qlt_le_weak _ _ Hq)) as [P _].
    assert (E : MoreGrids.juice_cruise_total_pts et_start et_end = Z.of_nat f)
      by (unfold MoreGrids.juice_cruise_total_pts, f, floor_count;
          rewrite P; lia).
    split; [exact E|].
    exists (linspace et_start (et_start + (et_end - et_start)) f).
    split.
    + unfold MoreGrids.juice_cruise_ets, MoreGrids.np_linspace. rewrite E.
      destruct (Z.of_nat f <? 0)%Z eqn:B; [lia|].
      now rewrite Nat2Z.id.
    + split; [apply linspace_length|].
      intros t Ht. apply linspace_bounds in Ht; lra.
  - intros per_day Hp fp.
    assert (Hq' : 0 <= per_day * (et_end - et_start) / 86400.0).
    { apply Qle_shift_div_l; [reflexivity|]. nra. }
    destruct (py_int_nonneg _ Hq') as [P P0]. fold fp in P, P0.
    split; [exact P|].
    exists (linspace et_start (et_start + (et_end - et_start)) (Z.to_nat fp)).
    split.
    + unfold MoreGrids.juice_ets, MoreGrids.np_linspace,
        MoreGrids.juice_total_pts. rewrite P.
      destruct (fp <? 0)%Z eqn:B; [lia | reflexivity].
    + split; [apply linspace_length|].
      intros t Ht. apply linspace_bounds in Ht; lra.
Qed.

Lemma C5_time_grid_witness :
  (vger_total_pts 0 864000 = 10%nat /\
   (forall t, In t (vger_ets 0 864000) -> 0 <= t /\ t < 864000) /\
   List.length (jwst_ets 0 864000) = 10%nat /\
   (forall t, In t (jwst_ets 0 864000) -> 0 <= t /\ t <= 864000) /\
   MoreGrids.juice_cruise_total_pts 0 864000 = 10%Z) /\
  (vger_total_pts 0 864001 = 11%nat /\
   MoreGrids.lucy_total_pts 0 864001 = 11%Z /\
   MoreGrids.juice_cruise_total_pts 0 864001 = 10%Z /\
   MoreGrids.juice_total_pts 8 0 864001 = 80%Z).
Proof.
  destruct (C5_time_grid 0 864000)
    as (A & B & C & D & _ & _ & _ & _ & (J & _) & _); [reflexivity|].
  destruct (C5_time_grid 0 864001)
    as (A' & _ & _ & _ & _ & _ & _ & (L' & _) & (J' & _) & K');
    [reflexivity|].
  split.
  - split; [exact A|]. split; [exact B|]. split; [exact C|].
    split; [exact D | exact J].
  - split; [exact A'|]. split; [exact L'|]. split; [exact J'|].
    apply (K' 8). reflexivity.
Defined.

End TimeGridFacts.

(** ** Static export *)

Module StaticExportFacts.

Import StaticExport.
Local Open Scope string_scope.

Lemma static_flag_found (argv : list string) :
  In "--static" argv -> existsb (String.eqb "--static") argv = true.
Proof.
  intros H. apply existsb_exists. exists "--static".
  split; [exact H | apply String.eqb_refl].
Qed.

Lemma lookup_written (path content : string) (w : world) :
  lookup path (files (snd (write_file path content w))) = Some content.
Proof. simpl. now rewrite String.eqb_refl. Qed.

Lemma output_control_on_raise (fig_html fig_png : string) (e : py_exc)
      (html_name png_name : string) (argv : list string) (w : world) :
  In "--static" argv ->
  output_control fig_html fig_png (Some e) html_name png_name argv w =
  let w1 := after_html fig_html html_name w in
  if issubclass_Exception (exc_cls e)
  then (Ret tt, mk_world (dirs w1) (files w1)
                         (stdout w1 ++ [png_warning e])%list (shown w1))
  else (Raise e, w1).
Proof.
  intros H. unfold output_control. rewrite (static_flag_found _ H).
  unfold after_html, seq_, bind, try_except_Exception, fig_write_image.
  simpl. destruct (issubclass_Exception (exc_cls e)); reflexivity.
Qed.

(** C6 as stated fails: a [KeyboardInterrupt] raised while the image is
    being written is not an [Exception]; it is not caught and the run
    ends with it (the HTML file is already written). *)
Lemma C6_keyboard_interrupt_escapes :
  let e := mk_exc KeyboardInterrupt "" in
  let run := nrho_plot_output "<html>" "PNG" (Some e)
                              ["nrho_plot.py"; "--static"] initial_world in
  fst run = Raise e /\
  stdout (snd run) = ["Wrote interactive HTML: docs/nrho_plot.html"] /\
  lookup "docs/nrho_plot.html" (files (snd run)) = Some "<html>".
Proof. repeat split. Qed.

(** C6 (amended): in static-export mode, if [fig.write_image] raises an
    exception that is an instance of [Exception], the exception is
    caught, the warning is printed, the run terminates normally, and the
    files are exactly those left by the HTML export: the HTML file
    holds the figure's HTML. *)
Theorem C6_png_failure_is_caught (fig_html fig_png : string) (e : py_exc)
        (html_name png_name : string) (argv : list string) (w : world) :
  In "--static" argv ->
  issubclass_Exception (exc_cls e) = true ->
  let run := output_control fig_html fig_png (Some e)
                            html_name png_name argv w in
  let w1 := after_html fig_html html_name w in
  fst run = Ret tt /\
  stdout (snd run) = (stdout w1 ++ [png_warning e])%list /\
  files (snd run) = files w1 /\
  lookup (os_path_join "docs" html_name) (files (snd run)) = Some fig_html /\
  shown (snd run) = shown w.
Proof.
  intros Hs He run w1. unfold run.
  rewrite (output_control_on_raise _ _ _ _ _ _ _ Hs). fold w1.
  rewrite He. simpl. repeat split.
  unfold w1, after_html. simpl. now rewrite String.eqb_refl.
Qed.

Lemma C6_png_failure_is_caught_witness :
  let e := mk_exc ValueError "kaleido is missing" in
  let run := genesis_halo_plot_output "<html>" "PNG" (Some e)
               ["genesis_halo_plot.py"; "--static"] initial_world in
  fst run = Ret tt /\
  stdout (snd run) =
    ["Wrote interactive HTML: docs/genesis_halo_plot.html";
     "PNG export failed (do you have 'kaleido' installed?): kaleido is missing"] /\
  lookup "docs/genesis_halo_plot.html" (files (snd run)) = Some "<html>".
Proof.
  intros e run.
  destruct (C6_png_failure_is_caught "<html>" "PNG" e
              "genesis_halo_plot.html" "genesis_halo_preview.png"
              ["genesis_halo_plot.py"; "--static"] initial_world)
    as (A & B & _ & D & _).
  - right; left; reflexivity.
  - reflexivity.
  - split; [exact A|]. split; [exact B | exact D].
Defined.

End StaticExportFacts.


(** ** The EMBR transform as an isometry *)

Lemma dot_mk3 (a b c a' b' c' : R) :
  dot (mk3 a b c) (mk3 a' b' c') = a * a' + b * b' + c * c'.
Proof. reflexivity. Qed.

(** The Gram determinant of [(a, b, w)] against [(a, b, u)]. *)
Lemma gram_cross (a b w u : vec3) :
  dot (cross a b) w * dot (cross a b) u =
  dot a a * (dot b b * dot w u - dot b u * dot b w)
  - dot a b * (dot a b * dot w u - dot b u * dot a w)
  + dot a u * (dot a b * dot b w - dot b b * dot a w).
Proof. unfold dot, cross. simpl. ring. Qed.

Lemma embr_matrix_isometry (st : state) (w u : vec3) :
  nondegenerate st ->
  dot (matvec (embr_matrix st) w) (matvec (embr_matrix st) u) = dot w u.
Proof.
  intros [Hr Hc].
  destruct (radial_normal_units _ _ Hr Hc) as (Hx & Hz & Hxz).
  unfold matvec, embr_matrix. simpl. rewrite dot_mk3.
  set (x := vdiv (pos st) (norm (pos st))) in *.
  set (z := vdiv (cross (pos st) (vel st))
                 (norm (cross (pos st) (vel st)))) in *.
  rewrite gram_cross, Hx, Hz, (dot_comm z x), Hxz.
  rewrite (dot_comm x w), (dot_comm z w), (dot_comm x u), (dot_comm z u).
  ring.
Qed.

Lemma matvec_vsub (M : mat3) (a b : vec3) :
  matvec M (vsub a b) = vsub (matvec M a) (matvec M b).
Proof. apply vec3_eq; unfold matvec, vsub, dot; simpl; ring. Qed.

Lemma matvec_vscale (M : mat3) (k : R) (a : vec3) :
  matvec M (vscale k a) = vscale k (matvec M a).
Proof. apply vec3_eq; unfold matvec, vscale, dot; simpl; ring. Qed.

Lemma vhat_some_inv (v u : vec3) : vhat v = Some u -> v <> zero3.
Proof.
  unfold vhat. destruct (Req_dec_T (norm v) 0) as [_ | N]; [discriminate|].
  intros _ E. apply N, norm_zero_iff, E.
Qed.

(** A defined transform comes from a non-degenerate state. *)
Lemma get_embr_transform_some_inv spkezr (et : R) (M : mat3) :
  get_embr_transform spkezr et = Some M ->
  let st := spkezr "MOON"%string et "J2000"%string "NONE"%string
                   "EMB"%string in
  nondegenerate st /\ M = embr_matrix st.
Proof.
  intros H st.
  assert (N : nondegenerate st).
  { unfold get_embr_transform in H. fold st in H.
    destruct (vhat (pos st)) as [x |] eqn:Ex; [| discriminate].
    simpl in H.
    destruct (vhat (cross (pos st) (vel st))) as [z |] eqn:Ez;
      [| discriminate].
    split; eauto using vhat_some_inv. }
  split; [exact N|].
  rewrite (get_embr_transform_value spkezr et N) in H.
  injection H as <-. reflexivity.
Qed.

(** X1: whenever [get_embr_transform] returns a matrix, that matrix
    preserves dot products and norms of all vectors. *)
Theorem X1_embr_transform_isometry spkezr (et : R) (M : mat3) (w u : vec3) :
  get_embr_transform spkezr et = Some M ->
  dot (matvec M w) (matvec M u) = dot w u /\
  norm (matvec M w) = norm w.
Proof.
  intros H. destruct (get_embr_transform_some_inv _ _ _ H) as [N ->].
  split.
  - apply embr_matrix_isometry, N.
  - unfold norm. f_equal. apply embr_matrix_isometry, N.
Qed.

Lemma X1_embr_transform_isometry_witness :
  let M := embr_matrix (mkstate (mk3 1 0 0) (mk3 0 1 0)) in
  dot (matvec M (mk3 1 2 3)) (matvec M (mk3 4 5 6)) =
    dot (mk3 1 2 3) (mk3 4 5 6) /\
  norm (matvec M (mk3 1 2 3)) = norm (mk3 1 2 3).
Proof.
  intros M.
  apply (X1_embr_transform_isometry circular_moon 0 M).
  apply (get_embr_transform_value circular_moon 0),
    circular_moon_nondegenerate.
Defined.

(** ** The Moon-centric trace of nrho_plot.py *)

Lemma nrho_r_mc_value spkezr (et : R) :
  let moon := spkezr "MOON"%string et "J2000"%string "NONE"%string
                     "EMB"%string in
  let gw := spkezr "-60000"%string et "J2000"%string "NONE"%string
                   "EMB"%string in
  nondegenerate moon ->
  nrho_r_mc spkezr et =
    Some (matvec (embr_matrix moon) (vsub (pos gw) (pos moon))).
Proof.
  intros moon gw N. unfold nrho_r_mc.
  rewrite (get_embr_transform_value spkezr et N). simpl.
  fold moon gw. now rewrite matvec_vsub.
Qed.

Lemma get_embr_transform_none spkezr (et : R) :
  let st := spkezr "MOON"%string et "J2000"%string "NONE"%string
                   "EMB"%string in
  cross (pos st) (vel st) = zero3 -> get_embr_transform spkezr et = None.
Proof.
  intros st Hz. unfold get_embr_transform. fold st.
  destruct (vhat (pos st)); simpl; [| reflexivity].
  now rewrite (vhat_none _ Hz).
Qed.

Lemma nrho_r_mc_none spkezr (et : R) :
  get_embr_transform spkezr et = None -> nrho_r_mc spkezr et = None.
Proof. intros H. unfold nrho_r_mc. now rewrite H. Qed.

(** X2: at an epoch where the Moon's state is non-degenerate, the
    Moon-centric EMBR position of the Gateway is the image of the
    J2000 vector Moon->Gateway, and its norm is the Moon-Gateway
    distance; the Moon itself is subtracted as (|r_moon|, 0, 0). *)
Theorem X2_moon_centric_position spkezr (et : R) :
  let moon := spkezr "MOON"%string et "J2000"%string "NONE"%string
                     "EMB"%string in
  let gw := spkezr "-60000"%string et "J2000"%string "NONE"%string
                   "EMB"%string in
  nondegenerate moon ->
  exists M r_mc,
    get_embr_transform spkezr et = Some M /\
    nrho_r_mc spkezr et = Some r_mc /\
    r_mc = matvec M (vsub (pos gw) (pos moon)) /\
    r_mc = vsub (matvec M (pos gw)) (mk3 (norm (pos moon)) 0 0) /\
    norm r_mc = norm (vsub (pos gw) (pos moon)).
Proof.
  intros moon gw N.
  exists (embr_matrix moon), (matvec (embr_matrix moon) (vsub (pos gw) (pos moon))).
  split; [apply get_embr_transform_value, N|].
  split; [apply nrho_r_mc_value, N|].
  split; [reflexivity|].
  split.
  - rewrite matvec_vsub. f_equal. apply embr_matrix_on_r, N.
  - unfold norm. f_equal. apply embr_matrix_isometry, N.
Qed.

Lemma gateway_scene_nondegenerate (et : R) (f a o : string) :
  nondegenerate (gateway_scene "MOON" et f a o).
Proof.
  split; simpl; intros H.
  - apply (f_equal c0) in H. simpl in H. lra.
  - apply (f_equal c2) in H. simpl in H. lra.
Qed.

Lemma X2_moon_centric_position_witness :
  exists M r_mc,
    get_embr_transform gateway_scene 0 = Some M /\
    nrho_r_mc gateway_scene 0 = Some r_mc /\
    r_mc = matvec M (vsub (mk3 81 3 4) (mk3 81 0 0)) /\
    r_mc = vsub (matvec M (mk3 81 3 4)) (mk3 (norm (mk3 81 0 0)) 0 0) /\
    norm r_mc = norm (vsub (mk3 81 3 4) (mk3 81 0 0)).
Proof.
  apply (X2_moon_centric_position gateway_scene 0).
  apply gateway_scene_nondegenerate.
Defined.

Lemma nrho_loop spkezr (ets : list R) :
  forall x y z : list R,
    (forall et, In et ets ->
       nondegenerate (spkezr "MOON"%string et "J2000"%string "NONE"%string
                             "EMB"%string)) ->
    exists pts : list vec3,
      fold_left (nrho_step spkezr) ets (Some (x, y, z)) =
        Some (x ++ map c0 pts, y ++ map c1 pts, z ++ map c2 pts) /\
      Forall2 (fun et p => nrho_r_mc spkezr et = Some p) ets pts.
Proof.
  induction ets as [| et ets IH]; intros x y z H.
  - exists []. simpl. rewrite !app_nil_r. split; [reflexivity | constructor].
  - assert (N : nondegenerate (spkezr "MOON"%string et "J2000"%string
                                      "NONE"%string "EMB"%string))
      by (apply H; left; reflexivity).
    pose proof (nrho_r_mc_value spkezr et N) as E. cbv zeta in E.
    set (p := matvec _ _) in E. clearbody p.
    simpl. rewrite E. simpl.
    destruct (IH (x ++ [c0 p]) (y ++ [c1 p]) (z ++ [c2 p]))
      as (pts & F & A);
      [intros et' Hin; apply H; right; exact Hin|].
    exists (p :: pts). split.
    + rewrite F. simpl. rewrite <- !app_assoc. reflexivity.
    + constructor; [exact E | exact A].
Qed.

Lemma nrho_loop_none spkezr (ets : list R) :
  fold_left (nrho_step spkezr) ets None = None.
Proof. induction ets as [| et ets IH]; simpl; auto. Qed.

(** X3: when the Moon's state is non-degenerate at every sampled
    epoch, the loop of nrho_plot.py yields three lists with one entry per
    epoch, in order, the i-th entries being the coordinates of the
    Moon-centric position at the i-th epoch; an epoch where r × v = 0
    makes the trace undefined. *)
Theorem X3_nrho_trace spkezr (ets : list R) :
  ((forall et, In et ets ->
      nondegenerate (spkezr "MOON"%string et "J2000"%string "NONE"%string
                            "EMB"%string)) ->
   exists pts : list vec3,
     nrho_trace spkezr ets = Some (columns pts) /\
     List.length pts = List.length ets /\
     Forall2 (fun et p => nrho_r_mc spkezr et = Some p) ets pts) /\
  (forall et,
      In et ets ->
      cross (pos (spkezr "MOON"%string et "J2000"%string "NONE"%string
                         "EMB"%string))
            (vel (spkezr "MOON"%string et "J2000"%string "NONE"%string
                         "EMB"%string)) = zero3 ->
      nrho_trace spkezr ets = None).
Proof.
  split.
  - intros H. destruct (nrho_loop spkezr ets [] [] [] H) as (pts & F & A).
    exists pts. split; [exact F|]. split; [| exact A].
    symmetry. eapply Forall2_length, A.
  - intros et Hin Hz. unfold nrho_trace.
    generalize (Some (@nil R, @nil R, @nil R)).
    induction ets as [| e ets IH]; [destruct Hin|].
    intros acc. simpl. destruct Hin as [-> | Hin].
    + assert (E : nrho_r_mc spkezr et = None).
      { apply nrho_r_mc_none, get_embr_transform_none, Hz. }
      unfold nrho_step at 2. rewrite E.
      destruct acc; simpl; apply nrho_loop_none.
    + apply IH, Hin.
Qed.

Lemma X3_nrho_trace_witness :
  (exists pts : list vec3,
     nrho_trace gateway_scene [0; 1] = Some (columns pts) /\
     List.length pts = 2%nat /\
     Forall2 (fun et p => nrho_r_mc gateway_scene et = Some p) [0; 1] pts) /\
  nrho_trace radial_moon [0; 1] = None.
Proof.
  destruct (X3_nrho_trace gateway_scene [0; 1]) as [A _].
  destruct (X3_nrho_trace radial_moon [0; 1]) as [_ B].
  split.
  - apply A. intros et _. apply gateway_scene_nondegenerate.
  - apply (B 0); [left; reflexivity|].
    apply vec3_eq; simpl; ring.
Defined.

(** ** The static markers of nrho_plot.py *)

(** X4: if at the mid epoch the Moon's state is non-degenerate and the
    Earth lies opposite the Moon as seen from the barycentre
    (r_earth = -k · r_moon with k >= 0), then the Earth marker is on the
    negative X axis at distance (1 + k)·|r_moon| from the Moon, and the
    L2 marker is on the positive X axis. *)
Theorem X4_earth_and_l2_markers spkezr (et_mid k : R) :
  let moon := spkezr "MOON"%string et_mid "J2000"%string "NONE"%string
                     "EMB"%string in
  let earth := spkezr "EARTH"%string et_mid "J2000"%string "NONE"%string
                      "EMB"%string in
  nondegenerate moon -> 0 <= k -> pos earth = vscale (- k) (pos moon) ->
  nrho_earth_center_mc spkezr et_mid =
    Some (mk3 (- ((1 + k) * norm (pos moon))) 0 0) /\
  - ((1 + k) * norm (pos moon)) < 0 /\
  exists r_L2, nrho_l2_mc spkezr et_mid = Some (mk3 r_L2 0 0) /\ 0 < r_L2.
Proof.
  intros moon earth N Hk He. pose proof (norm_pos _ (proj1 N)) as Hn.
  fold moon in Hn. split; [| split].
  - unfold nrho_earth_center_mc.
    rewrite (get_embr_transform_value spkezr et_mid N). simpl.
    fold moon earth. rewrite He, matvec_vscale.
    rewrite (embr_matrix_on_r moon (proj1 N)).
    f_equal. apply vec3_eq; unfold vsub, vscale; simpl; ring.
  - nra.
  - exists (norm (pos moon) * Rpower (mu / 3) (1 / 3)). split.
    + unfold nrho_l2_mc. rewrite (nrho_r_L2_value spkezr et_mid N).
      simpl. fold moon. f_equal. apply vec3_eq; simpl; lra.
    + pose proof (Rpower_pos (mu / 3) (1 / 3)). nra.
Qed.

Lemma X4_earth_and_l2_markers_witness :
  nrho_earth_center_mc earth_moon 0 =
    Some (mk3 (- ((1 + 1 / 81) * norm (mk3 81 0 0))) 0 0) /\
  - ((1 + 1 / 81) * norm (mk3 81 0 0)) < 0 /\
  exists r_L2, nrho_l2_mc earth_moon 0 = Some (mk3 r_L2 0 0) /\ 0 < r_L2.
Proof.
  apply (X4_earth_and_l2_markers earth_moon 0 (1 / 81)).
  - apply earth_moon_nondegenerate.
  - lra.
  - apply vec3_eq; simpl; field.
Defined.

(** ** Special orbits *)

Lemma norm_of_square (v : vec3) (k : R) :
  0 <= k -> dot v v = k * k -> norm v = k.
Proof. intros Hk H. unfold norm. rewrite H. apply sqrt_square, Hk. Qed.

Lemma cos2_sin2 (t : R) : cos t * cos t + sin t * sin t = 1.
Proof. pose proof (sin2_cos2 t) as H. unfold Rsqr in H. lra. Qed.

Lemma circular_state_nondegenerate (R0 omega theta : R) :
  0 < R0 -> 0 < omega -> nondegenerate (circular_state R0 omega theta).
Proof.
  intros HR Hw. pose proof (cos2_sin2 theta) as Hcs.
  split; simpl; intros H.
  - assert (H0 := f_equal c0 H). assert (H1 := f_equal c1 H).
    simpl in H0, H1. nra.
  - assert (H2 := f_equal c2 H). simpl in H2.
    assert (E : R0 * cos theta * (R0 * omega * cos theta)
                - R0 * sin theta * - (R0 * omega * sin theta)
                = R0 * R0 * omega * (cos theta * cos theta
                                      + sin theta * sin theta)) by ring.
    rewrite E, Hcs in H2.
    assert (0 < R0 * R0 * omega)
      by (repeat apply Rmult_lt_0_compat; assumption).
    lra.
Qed.

Lemma circular_state_radius (R0 omega theta : R) :
  0 < R0 -> norm (pos (circular_state R0 omega theta)) = R0.
Proof.
  intros HR. pose proof (cos2_sin2 theta) as Hcs.
  apply norm_of_square; [lra|]. unfold dot. simpl.
  replace (R0 * cos theta * (R0 * cos theta)
           + R0 * sin theta * (R0 * sin theta) + 0 * 0)
    with (R0 * R0 * (cos theta * cos theta + sin theta * sin theta))
    by ring.
  rewrite Hcs. ring.
Qed.

Lemma circular_state_matrix (R0 omega theta : R) :
  0 < R0 -> 0 < omega ->
  embr_matrix (circular_state R0 omega theta) = rotz (- theta).
Proof.
  intros HR Hw. pose proof (cos2_sin2 theta) as Hcs.
  unfold embr_matrix, circular_state. simpl.
  set (r := mk3 (R0 * cos theta) (R0 * sin theta) 0).
  set (v := mk3 (- (R0 * omega * sin theta)) (R0 * omega * cos theta) 0).
  assert (Nr : norm r = R0)
    by (apply (circular_state_radius R0 omega theta HR)).
  assert (Ec : cross r v = mk3 0 0 (R0 * R0 * omega)).
  { apply vec3_eq; unfold r, v, cross; simpl; try ring.
    replace (R0 * cos theta * (R0 * omega * cos theta)
             - R0 * sin theta * - (R0 * omega * sin theta))
      with (R0 * R0 * omega * (cos theta * cos theta
                                + sin theta * sin theta)) by ring.
    rewrite Hcs. ring. }
  assert (Hpos : 0 < R0 * R0 * omega)
    by (repeat apply Rmult_lt_0_compat; assumption).
  assert (Nc : norm (cross r v) = R0 * R0 * omega).
  { rewrite Ec. apply norm_of_square; [lra|]. unfold dot. simpl. ring. }
  rewrite Nr, Nc, Ec. unfold rotz. rewrite cos_neg, sin_neg.
  unfold r, cross, vdiv. simpl.
  f_equal; apply vec3_eq; simpl; field; lra.
Qed.

(** X5: for a body on a circular prograde orbit in the XY plane
    (radius R0 > 0, angular rate omega > 0) at phase theta,
    [get_embr_transform] is the rotation by -theta about +Z, and the
    body is mapped to the fixed point (R0, 0, 0). *)
Theorem X5_circular_orbit_frame spkezr (et R0 omega theta : R) :
  0 < R0 -> 0 < omega ->
  spkezr "MOON"%string et "J2000"%string "NONE"%string "EMB"%string
    = circular_state R0 omega theta ->
  get_embr_transform spkezr et = Some (rotz (- theta)) /\
  r_moon_embr spkezr et = Some (mk3 R0 0 0).
Proof.
  intros HR Hw E.
  pose proof (circular_state_nondegenerate R0 omega theta HR Hw) as N.
  rewrite <- E in N.
  assert (T : get_embr_transform spkezr et = Some (rotz (- theta))).
  { rewrite (get_embr_transform_value spkezr et N), E.
    f_equal. apply circular_state_matrix; assumption. }
  split; [exact T|].
  unfold r_moon_embr. rewrite (get_embr_transform_value spkezr et N).
  simpl. rewrite (embr_matrix_on_r _ (proj1 N)), E.
  now rewrite (circular_state_radius R0 omega theta HR).
Qed.

Lemma X5_circular_orbit_frame_witness :
  get_embr_transform (orbiting_moon 2 3) 5 = Some (rotz (- (3 * 5))) /\
  r_moon_embr (orbiting_moon 2 3) 5 = Some (mk3 2 0 0).
Proof.
  apply (X5_circular_orbit_frame (orbiting_moon 2 3) 5 2 3 (3 * 5));
    [lra | lra | reflexivity].
Defined.

(** ** Invariance under rescaling *)

Lemma norm_vscale (k : R) (v : vec3) :
  0 <= k -> norm (vscale k v) = k * norm v.
Proof.
  intros Hk. apply norm_of_square.
  - apply Rmult_le_pos; [exact Hk | apply norm_nonneg].
  - replace (k * norm v * (k * norm v)) with (k * k * (norm v * norm v))
      by ring.
    rewrite norm_sqr. unfold dot, vscale. simpl. ring.
Qed.

Lemma vhat_vscale (k : R) (v : vec3) :
  0 < k -> vhat (vscale k v) = vhat v.
Proof.
  intros Hk. unfold vhat. rewrite norm_vscale by lra.
  destruct (Req_dec_T (k * norm v) 0) as [E | N];
    destruct (Req_dec_T (norm v) 0) as [E' | N'].
  - reflexivity.
  - exfalso. apply N'. nra.
  - exfalso. apply N. rewrite E'. ring.
  - f_equal. apply vec3_eq; unfold vdiv, vscale; simpl; field; lra.
Qed.

Lemma cross_vscale (a b : R) (r v : vec3) :
  cross (vscale a r) (vscale b v) = vscale (a * b) (cross r v).
Proof. apply vec3_eq; unfold cross, vscale; simpl; ring. Qed.

(** X6: the EMBR transform depends only on the directions of r and v:
    two ephemerides whose Moon positions differ by a factor a > 0 and
    whose Moon velocities differ by a factor b > 0 give the same result
    (the same matrix, or both undefined). *)
Theorem X6_embr_transform_scale_invariant spkezr1 spkezr2 (et a b : R) :
  let st1 := spkezr1 "MOON"%string et "J2000"%string "NONE"%string
                     "EMB"%string in
  let st2 := spkezr2 "MOON"%string et "J2000"%string "NONE"%string
                     "EMB"%string in
  0 < a -> 0 < b ->
  pos st2 = vscale a (pos st1) -> vel st2 = vscale b (vel st1) ->
  get_embr_transform spkezr2 et = get_embr_transform spkezr1 et.
Proof.
  intros st1 st2 Ha Hb Hp Hv. unfold get_embr_transform.
  fold st1 st2. rewrite Hp, Hv, cross_vscale.
  rewrite (vhat_vscale a _ Ha).
  rewrite (vhat_vscale (a * b)) by (apply Rmult_lt_0_compat; assumption).
  reflexivity.
Qed.

Lemma X6_embr_transform_scale_invariant_witness :
  get_embr_transform rescaled_moon 0 = get_embr_transform circular_moon 0.
Proof.
  apply (X6_embr_transform_scale_invariant circular_moon rescaled_moon 0 2 3).
  - lra.
  - lra.
  - apply vec3_eq; simpl; ring.
  - apply vec3_eq; simpl; ring.
Defined.

(** ** test_transform.py on degenerate and regular states *)

Lemma sp_vhat_zero : sp_vhat zero3 = zero3.
Proof.
  unfold sp_vhat. destruct (Rlt_dec 0 (norm zero3)) as [H | _];
    [| reflexivity].
  exfalso. rewrite (proj2 (norm_zero_iff zero3) eq_refl) in H. lra.
Qed.

Lemma cross_zero_l (v : vec3) : cross zero3 v = zero3.
Proof. apply vec3_eq; unfold cross; simpl; ring. Qed.

Lemma norm_zero3 : norm zero3 = 0.
Proof. now apply norm_zero_iff. Qed.

(** X7: when r × v is the zero vector, test_transform.py's inline
    construction (SPICE [vhat] returns the zero vector on a zero input)
    silently yields a matrix whose Y and Z rows are zero; it has
    determinant 0 and is not orthonormal, while [get_embr_transform] at
    the same epoch is undefined. *)
Theorem X7_manual_transform_degenerate spkezr utc2et :
  let st := spkezr "MOON"%string (test_et utc2et) "J2000"%string
                   "NONE"%string "EMB"%string in
  cross (pos st) (vel st) = zero3 ->
  xfm_manual spkezr utc2et = vstack (sp_vhat (pos st)) zero3 zero3 /\
  det (xfm_manual spkezr utc2et) = 0 /\
  ~ orthonormal (xfm_manual spkezr utc2et) /\
  get_embr_transform spkezr (test_et utc2et) = None.
Proof.
  intros st Hz.
  assert (E : xfm_manual spkezr utc2et
              = vstack (sp_vhat (pos st)) zero3 zero3).
  { unfold xfm_manual. fold st. rewrite Hz, sp_vhat_zero, cross_zero_l.
    reflexivity. }
  split; [exact E|]. rewrite E. split; [| split].
  - unfold det, dot, cross. simpl. ring.
  - intros (_ & H & _). simpl in H. rewrite norm_zero3 in H. lra.
  - apply get_embr_transform_none. exact Hz.
Qed.

Lemma X7_manual_transform_degenerate_witness :
  xfm_manual radial_moon const_et
    = vstack (sp_vhat (mk3 1 0 0)) zero3 zero3 /\
  det (xfm_manual radial_moon const_et) = 0 /\
  ~ orthonormal (xfm_manual radial_moon const_et) /\
  get_embr_transform radial_moon (test_et const_et) = None.
Proof.
  apply (X7_manual_transform_degenerate radial_moon const_et).
  apply vec3_eq; simpl; ring.
Defined.

Lemma np_degrees_right_angle : np_degrees (PI / 2) = 90.
Proof. unfold np_degrees. field. apply PI_neq0. Qed.

Lemma np_degrees_zero : np_degrees 0 = 0.
Proof. unfold np_degrees. field. apply PI_neq0. Qed.

(** X8: on a non-degenerate state, test_transform.py reports the
    distance |r| and the angles 0, 90 and 90 degrees between the Moon's
    EMBR position and the X, Y and Z axes. *)
Theorem X8_manual_angles spkezr utc2et :
  let st := spkezr "MOON"%string (test_et utc2et) "J2000"%string
                   "NONE"%string "EMB"%string in
  nondegenerate st ->
  R_embr_manual spkezr utc2et = norm (pos st) /\
  ang_embr_x_manual spkezr utc2et = Some 0 /\
  ang_embr_y_manual spkezr utc2et = Some 90 /\
  ang_embr_z_manual spkezr utc2et = Some 90.
Proof.
  intros st N. pose proof (norm_pos _ (proj1 N)) as Hn. fold st in Hn.
  assert (E : r_embr_manual spkezr utc2et = mk3 (norm (pos st)) 0 0).
  { unfold r_embr_manual. rewrite (xfm_manual_value _ _ N).
    apply embr_matrix_on_r, N. }
  assert (ER : R_embr_manual spkezr utc2et = norm (pos st)).
  { unfold R_embr_manual. rewrite E. apply norm_on_x. lra. }
  split; [exact ER|].
  unfold ang_embr_x_manual, ang_embr_y_manual, ang_embr_z_manual,
    ang_embr_manual.
  rewrite ER, E. simpl.
  destruct (Req_dec_T (norm (pos st)) 0) as [Z | _]; [lra|].
  replace (norm (pos st) / norm (pos st)) with 1 by (field; lra).
  replace (0 / norm (pos st)) with 0 by (field; lra).
  rewrite acos_1, acos_0, np_degrees_zero, np_degrees_right_angle.
  repeat split.
Qed.

Lemma X8_manual_angles_witness :
  R_embr_manual circular_moon const_et = norm (mk3 1 0 0) /\
  ang_embr_x_manual circular_moon const_et = Some 0 /\
  ang_embr_y_manual circular_moon const_et = Some 90 /\
  ang_embr_z_manual circular_moon const_et = Some 90.
Proof.
  apply (X8_manual_angles circular_moon const_et).
  apply circular_moon_nondegenerate.
Defined.

(** ** Size of the Hill-sphere factor *)

Lemma cube_of_cube_root (x : R) :
  0 < x -> Rpower x (1 / 3) * Rpower x (1 / 3) * Rpower x (1 / 3) = x.
Proof.
  intros Hx. rewrite <- !Rpower_plus.
  replace (1 / 3 + 1 / 3 + 1 / 3) with 1 by field.
  apply Rpower_1, Hx.
Qed.

Lemma cube_root_between (x a b : R) :
  0 < a -> 0 < b -> a * a * a < x -> x < b * b * b ->
  a < Rpower x (1 / 3) < b.
Proof.
  intros Ha Hb Hax Hxb.
  assert (Hx : 0 < x) by nra.
  pose proof (cube_of_cube_root x Hx) as Hk.
  pose proof (Rpower_pos x (1 / 3)) as Hp.
  set (k := Rpower x (1 / 3)) in *.
  split.
  - destruct (Rlt_dec a k) as [H | H]; [exact H | exfalso].
    assert (k <= a) by lra.
    assert (k * k <= a * a) by nra.
    assert (k * k * k <= a * a * a) by nra. lra.
  - destruct (Rlt_dec k b) as [H | H]; [exact H | exfalso].
    assert (b <= k) by lra.
    assert (b * b <= k * k) by nra.
    assert (b * b * b <= k * k * k) by nra. lra.
Qed.

Lemma sun_earth_factor :
  0.010003 < Rpower (gm_earth / (3 * (gm_sun + gm_earth))) (1 / 3) < 0.010004.
Proof.
  apply cube_root_between; unfold gm_earth, gm_sun; lra.
Qed.

Lemma earth_moon_factor : 0.1594 < Rpower (mu / 3) (1 / 3) < 0.1595.
Proof. apply cube_root_between; unfold mu; lra. Qed.

(** X9: every Sun-Earth L1/L2 distance of jwst.py and
    genesis_halo_plot.py lies between 1.0003 % and 1.0004 % of the
    Earth-Sun distance it is computed from (about 1.4965e6 km at
    1.496e8 km), and the Moon-L2 distance of nrho_plot.py lies between
    15.94 % and 15.95 % of the barycentre-Moon distance. *)
Theorem X9_libration_distance_size spkezr (ets : list R)
        (et_start et_end et_mid : R) :
  let R_se et := norm (pos (spkezr "SUN"%string et "GSE"%string
                                   "NONE"%string "EARTH"%string)) in
  let moon := spkezr "MOON"%string et_mid "J2000"%string "NONE"%string
                     "EMB"%string in
  Forall2 (fun et d => 0.010003 * R_se et <= d <= 0.010004 * R_se et)
          ets (jwst_d_SE_L_arr spkezr ets) /\
  0.010003 * R_se (0.5 * (et_start + et_end))
    <= genesis_d_SE_L spkezr et_start et_end
    <= 0.010004 * R_se (0.5 * (et_start + et_end)) /\
  1496448.8 < hill_distance 1.496e8 gm_earth gm_sun < 1496598.4 /\
  (nondegenerate moon ->
   exists r_L2, nrho_r_L2 spkezr et_mid = Some r_L2 /\
                0.1594 * norm (pos moon) < r_L2 < 0.1595 * norm (pos moon)).
Proof.
  intros R_se moon. pose proof sun_earth_factor as [Hlo Hhi].
  assert (Hfac : Rpower (gm_earth / (3.0 * (gm_sun + gm_earth))) (1.0 / 3.0)
                 = Rpower (gm_earth / (3 * (gm_sun + gm_earth))) (1 / 3)).
  { replace 3.0 with 3 by lra. replace 1.0 with 1 by lra. reflexivity. }
  split; [| split; [| split]].
  - unfold jwst_d_SE_L_arr, jwst_R_se_list. rewrite map_map.
    induction ets as [| et ets IH]; simpl; constructor; [| exact IH].
    rewrite Hfac. fold (R_se et).
    pose proof (norm_nonneg (pos (spkezr "SUN"%string et "GSE"%string
                                         "NONE"%string "EARTH"%string))).
    fold (R_se et) in H. nra.
  - unfold genesis_d_SE_L, genesis_et_mid. rewrite Hfac.
    fold (R_se (0.5 * (et_start + et_end))).
    pose proof (norm_nonneg (pos (spkezr "SUN"%string
                                         (0.5 * (et_start + et_end))
                                         "GSE"%string "NONE"%string
                                         "EARTH"%string))).
    fold (R_se (0.5 * (et_start + et_end))) in H. nra.
  - unfold hill_distance. nra.
  - intros N. pose proof earth_moon_factor as [Mlo Mhi].
    pose proof (norm_pos _ (proj1 N)) as Hn. fold moon in Hn.
    exists (norm (pos moon) * Rpower (mu / 3) (1 / 3)).
    split; [apply nrho_r_L2_value, N|]. nra.
Qed.

Lemma X9_libration_distance_size_witness :
  exists r_L2, nrho_r_L2 earth_moon 0 = Some r_L2 /\
               0.1594 * norm (mk3 81 0 0) < r_L2 < 0.1595 * norm (mk3 81 0 0).
Proof.
  apply (proj2 (proj2 (proj2
           (X9_libration_distance_size earth_moon [] 0 0 0)))).
  apply earth_moon_nondegenerate.
Defined.

(** ** More on the triangular libration points *)

Lemma zip3_length {A B C : Type} (l1 : list A) (l2 : list B) (l3 : list C) :
  List.length (zip3 l1 l2 l3) =
  Nat.min (List.length l1) (Nat.min (List.length l2) (List.length l3)).
Proof.
  revert l2 l3. induction l1 as [| a l1 IH]; intros l2 l3; [reflexivity|].
  destruct l2 as [| b l2]; [reflexivity|].
  destruct l3 as [| c l3]; [simpl; lia|].
  simpl. now rewrite IH.
Qed.

(** X10: the six lists returned by [compute_l4_l5_from_jupiter] all have
    the length of the shortest of the three input lists (Python's [zip]
    stops there; longer inputs are silently truncated). *)
Theorem X10_l4_l5_lengths (jx jy jz : list R) (deg : R) :
  let n := Nat.min (List.length jx)
                   (Nat.min (List.length jy) (List.length jz)) in
  let '((l4_x, l4_y, l4_z), (l5_x, l5_y, l5_z)) :=
    compute_l4_l5_from_jupiter jx jy jz deg in
  List.length l4_x = n /\ List.length l4_y = n /\ List.length l4_z = n /\
  List.length l5_x = n /\ List.length l5_y = n /\ List.length l5_z = n.
Proof.
  intros n. rewrite compute_l4_l5_columns. unfold columns.
  rewrite !length_map, zip3_length. repeat split.
Qed.

Lemma zip3_columns (pts : list vec3) :
  zip3 (map c0 pts) (map c1 pts) (map c2 pts) =
  map (fun p => (c0 p, c1 p, c2 p)) pts.
Proof. induction pts as [| p pts IH]; simpl; [| rewrite IH]; reflexivity. Qed.

Lemma columns_zip3 (jx jy jz : list R) :
  List.length jy = List.length jx -> List.length jz = List.length jx ->
  columns (map point (zip3 jx jy jz)) = (jx, jy, jz).
Proof.
  revert jy jz. induction jx as [| x jx IH]; intros jy jz Hy Hz.
  - destruct jy, jz; try discriminate. reflexivity.
  - destruct jy as [| y jy]; [discriminate|].
    destruct jz as [| z jz]; [discriminate|].
    simpl in Hy, Hz. injection Hy as Hy. injection Hz as Hz.
    specialize (IH jy jz Hy Hz). unfold columns in *. simpl.
    injection IH as -> -> ->. reflexivity.
Qed.

Lemma l5_after_l4 (c s : R) (p : R * R * R) :
  c * c + s * s = 1 ->
  l5_point c s (c0 (l4_point c s p), c1 (l4_point c s p), c2 (l4_point c s p))
  = point p.
Proof.
  intros H. destruct p as [[x y] z]. apply vec3_eq; simpl; try reflexivity.
  - replace ((x * c - y * s) * c + (x * s + y * c) * s)
      with (x * (c * c + s * s)) by ring.
    rewrite H. ring.
  - replace (- (x * c - y * s) * s + (x * s + y * c) * c)
      with (y * (c * c + s * s)) by ring.
    rewrite H. ring.
Qed.

Lemma l4_after_l5 (c s : R) (p : R * R * R) :
  c * c + s * s = 1 ->
  l4_point c s (c0 (l5_point c s p), c1 (l5_point c s p), c2 (l5_point c s p))
  = point p.
Proof.
  intros H. destruct p as [[x y] z]. apply vec3_eq; simpl; try reflexivity.
  - replace ((x * c + y * s) * c - (- x * s + y * c) * s)
      with (x * (c * c + s * s)) by ring.
    rewrite H. ring.
  - replace ((x * c + y * s) * s + (- x * s + y * c) * c)
      with (y * (c * c + s * s)) by ring.
    rewrite H. ring.
Qed.

(** X11: for three input lists of equal length and any angle, feeding
    the L4 trace back into [compute_l4_l5_from_jupiter] returns the
    original trace as its L5 output, and feeding the L5 trace back
    returns the original trace as its L4 output. *)
Theorem X11_l4_l5_round_trip (jx jy jz : list R) (deg : R) :
  List.length jy = List.length jx -> List.length jz = List.length jx ->
  let '(l4_x, l4_y, l4_z) := fst (compute_l4_l5_from_jupiter jx jy jz deg) in
  let '(l5_x, l5_y, l5_z) := snd (compute_l4_l5_from_jupiter jx jy jz deg) in
  snd (compute_l4_l5_from_jupiter l4_x l4_y l4_z deg) = (jx, jy, jz) /\
  fst (compute_l4_l5_from_jupiter l5_x l5_y l5_z deg) = (jx, jy, jz).
Proof.
  intros Hy Hz. rewrite compute_l4_l5_columns. unfold columns at 1 2. simpl.
  rewrite !compute_l4_l5_columns, !zip3_columns. simpl.
  rewrite !map_map.
  pose proof (cos2_sin2 (deg2rad deg)) as Hcs.
  split; (etransitivity; [| apply (columns_zip3 jx jy jz Hy Hz)]);
    f_equal; apply map_ext; intros p.
  - apply l5_after_l4, Hcs.
  - apply l4_after_l5, Hcs.
Qed.

Lemma X11_l4_l5_round_trip_witness :
  snd (compute_l4_l5_from_jupiter
         (fst (fst (fst (compute_l4_l5_from_jupiter [1; 2] [3; 4] [5; 6] 60))))
         (snd (fst (fst (compute_l4_l5_from_jupiter [1; 2] [3; 4] [5; 6] 60))))
         (snd (fst (compute_l4_l5_from_jupiter [1; 2] [3; 4] [5; 6] 60)))
         60)
  = ([1; 2], [3; 4], [5; 6]).
Proof.
  pose proof (X11_l4_l5_round_trip [1; 2] [3; 4] [5; 6] 60 eq_refl eq_refl)
    as H.
  destruct (compute_l4_l5_from_jupiter [1; 2] [3; 4] [5; 6] 60)
    as [[[l4_x l4_y] l4_z] [[l5_x l5_y] l5_z]].
  exact (proj1 H).
Defined.

Lemma l4_l5_nth (jx jy jz : list R) (c s : R) (i : nat) (x y z : R)
      (f : vec3 -> R) (g : R -> R -> R * R * R -> vec3) :
  nth_error jx i = Some x -> nth_error jy i = Some y ->
  nth_error jz i = Some z ->
  nth_error (map f (map (g c s) (zip3 jx jy jz))) i = Some (f (g c s (x, y, z))).
Proof.
  intros Hx Hy Hz. rewrite map_map.
  apply map_nth_error with (f := fun p => f (g c s p)).
  now apply nth_error_zip3.
Qed.

Lemma l4_chord (c s x y z : R) :
  c * c + s * s = 1 ->
  dot (vsub (l4_point c s (x, y, z)) (mk3 x y z))
      (vsub (l4_point c s (x, y, z)) (mk3 x y z))
  = 2 * (1 - c) * (x * x + y * y).
Proof.
  intros H. unfold dot, vsub. simpl.
  replace ((x * c - y * s - x) * (x * c - y * s - x)
           + (x * s + y * c - y) * (x * s + y * c - y) + (z - z) * (z - z))
    with ((x * x + y * y) * (c * c + s * s) + (x * x + y * y)
          - 2 * c * (x * x + y * y)) by ring.
  rewrite H. ring.
Qed.

Lemma l5_chord (c s x y z : R) :
  c * c + s * s = 1 ->
  dot (vsub (l5_point c s (x, y, z)) (mk3 x y z))
      (vsub (l5_point c s (x, y, z)) (mk3 x y z))
  = 2 * (1 - c) * (x * x + y * y).
Proof.
  intros H. unfold dot, vsub. simpl.
  replace ((x * c + y * s - x) * (x * c + y * s - x)
           + (- x * s + y * c - y) * (- x * s + y * c - y)
           + (z - z) * (z - z))
    with ((x * x + y * y) * (c * c + s * s) + (x * x + y * y)
          - 2 * c * (x * x + y * y)) by ring.
  rewrite H. ring.
Qed.

(** X12: with the default 60 degrees, the i-th L4 point and the i-th L5
    point are each as far from the i-th input point as that point is from
    the Z axis; for an input in the XY plane (z = 0) the origin, the
    input point and L4 (or L5) form an equilateral triangle. *)
Theorem X12_l4_l5_equilateral (jx jy jz : list R) (i : nat) (x y z : R) :
  nth_error jx i = Some x -> nth_error jy i = Some y ->
  nth_error jz i = Some z ->
  let r := compute_l4_l5_from_jupiter jx jy jz 60 in
  exists p4 p5 : vec3,
    (nth_error (fst (fst (fst r))) i = Some (c0 p4) /\
     nth_error (snd (fst (fst r))) i = Some (c1 p4) /\
     nth_error (snd (fst r)) i = Some (c2 p4)) /\
    (nth_error (fst (fst (snd r))) i = Some (c0 p5) /\
     nth_error (snd (fst (snd r))) i = Some (c1 p5) /\
     nth_error (snd (snd r)) i = Some (c2 p5)) /\
    norm (vsub p4 (mk3 x y z)) = sqrt (x * x + y * y) /\
    norm (vsub p5 (mk3 x y z)) = sqrt (x * x + y * y) /\
    (z = 0 ->
     norm (vsub p4 (mk3 x y z)) = norm (mk3 x y z) /\
     norm (vsub p5 (mk3 x y z)) = norm (mk3 x y z) /\
     norm p4 = norm (mk3 x y z) /\ norm p5 = norm (mk3 x y z)).
Proof.
  intros Hx Hy Hz r. subst r. rewrite compute_l4_l5_columns.
  unfold columns. simpl.
  set (c := cos (deg2rad 60)). set (s := sin (deg2rad 60)).
  assert (Hcs : c * c + s * s = 1) by apply cos2_sin2.
  assert (Hc : c = 1 / 2) by (unfold c; rewrite deg2rad_60; apply cos_PI3).
  assert (D4 : norm (vsub (l4_point c s (x, y, z)) (mk3 x y z))
               = sqrt (x * x + y * y)).
  { unfold norm. rewrite (l4_chord c s x y z Hcs), Hc. f_equal. field. }
  assert (D5 : norm (vsub (l5_point c s (x, y, z)) (mk3 x y z))
               = sqrt (x * x + y * y)).
  { unfold norm. rewrite (l5_chord c s x y z Hcs), Hc. f_equal. field. }
  destruct (rotation_keeps_norm c s x y z Hcs) as [N4 N5].
  exists (l4_point c s (x, y, z)), (l5_point c s (x, y, z)).
  split; [repeat split; now apply l4_l5_nth|].
  split; [repeat split; now apply l4_l5_nth|].
  split; [exact D4|]. split; [exact D5|].
  intros Z0. rewrite D4, D5, N4, N5. subst z.
  assert (E : norm (mk3 x y 0) = sqrt (x * x + y * y))
    by (unfold norm, dot; simpl; f_equal; ring).
  rewrite E. repeat split.
Qed.

Lemma X12_l4_l5_equilateral_witness :
  exists p4 p5 : vec3,
    (nth_error (fst (fst (fst (compute_l4_l5_from_jupiter [3] [4] [0] 60))))
               0 = Some (c0 p4) /\
     nth_error (snd (fst (fst (compute_l4_l5_from_jupiter [3] [4] [0] 60))))
               0 = Some (c1 p4) /\
     nth_error (snd (fst (compute_l4_l5_from_jupiter [3] [4] [0] 60)))
               0 = Some (c2 p4)) /\
    (nth_error (fst (fst (snd (compute_l4_l5_from_jupiter [3] [4] [0] 60))))
               0 = Some (c0 p5) /\
     nth_error (snd (fst (snd (compute_l4_l5_from_jupiter [3] [4] [0] 60))))
               0 = Some (c1 p5) /\
     nth_error (snd (snd (compute_l4_l5_from_jupiter [3] [4] [0] 60)))
               0 = Some (c2 p5)) /\
    norm (vsub p4 (mk3 3 4 0)) = norm (mk3 3 4 0) /\
    norm (vsub p5 (mk3 3 4 0)) = norm (mk3 3 4 0) /\
    norm p4 = norm (mk3 3 4 0) /\ norm p5 = norm (mk3 3 4 0).
Proof.
  destruct (X12_l4_l5_equilateral [3] [4] [0] 0 3 4 0 eq_refl eq_refl eq_refl)
    as (p4 & p5 & A & B & _ & _ & E).
  exists p4, p5. split; [exact A|]. split; [exact B|]. apply E. reflexivity.
Defined.

(** ** Mean markers *)

Lemma sum_l4_l5 (c s : R) (jx : list R) :
  forall jy jz : list R,
    List.length jy = List.length jx -> List.length jz = List.length jx ->
    let pts := zip3 jx jy jz in
    let sum := fold_right Rplus 0 in
    sum (map c0 (map (l4_point c s) pts)) = sum jx * c - sum jy * s /\
    sum (map c1 (map (l4_point c s) pts)) = sum jx * s + sum jy * c /\
    sum (map c2 (map (l4_point c s) pts)) = sum jz /\
    sum (map c0 (map (l5_point c s) pts)) = sum jx * c + sum jy * s /\
    sum (map c1 (map (l5_point c s) pts)) = - sum jx * s + sum jy * c /\
    sum (map c2 (map (l5_point c s) pts)) = sum jz.
Proof.
  induction jx as [| x jx IH]; intros jy jz Hy Hz.
  - destruct jy; [| discriminate]. destruct jz; [| discriminate].
    simpl. repeat split; ring.
  - destruct jy as [| y jy]; [discriminate|].
    destruct jz as [| z jz]; [discriminate|].
    simpl in Hy, Hz. injection Hy as Hy. injection Hz as Hz.
    destruct (IH jy jz Hy Hz) as (A & B & C & D & E & F).
    simpl. rewrite A, B, C, D, E, F. repeat split; ring.
Qed.

Lemma np_mean_cons (a : R) (l : list R) :
  np_mean (a :: l)
  = Some (fold_right Rplus 0 (a :: l) / INR (List.length (a :: l))).
Proof. reflexivity. Qed.

(** X13: for three non-empty input lists of equal length, the mean of
    the L4 trace is the input's mean point rotated by +deg about Z, and
    the mean of the L5 trace is the mean point rotated by -deg; on empty
    input the means are undefined. *)
Theorem X13_mean_markers (jx jy jz : list R) (deg : R) :
  let c := cos (deg2rad deg) in
  let s := sin (deg2rad deg) in
  let r := compute_l4_l5_from_jupiter jx jy jz deg in
  (jx <> [] ->
   List.length jy = List.length jx -> List.length jz = List.length jx ->
   exists m : vec3,
     mean_point (jx, jy, jz) = Some m /\
     mean_point (fst r) = Some (l4_point c s (c0 m, c1 m, c2 m)) /\
     mean_point (snd r) = Some (l5_point c s (c0 m, c1 m, c2 m))) /\
  (jx = [] -> mean_point (fst r) = None /\ mean_point (snd r) = None).
Proof.
  intros c s r. subst r. rewrite compute_l4_l5_columns. fold c s. split.
  - intros Hne Hy Hz.
    destruct (sum_l4_l5 c s jx jy jz Hy Hz) as (A & B & C & D & E & F).
    destruct jx as [| x jx]; [contradiction|].
    destruct jy as [| y jy]; [discriminate|].
    destruct jz as [| z jz]; [discriminate|].
    set (n := INR (List.length (x :: jx))).
    assert (Hn : n <> 0) by (unfold n; apply not_0_INR; discriminate).
    exists (mk3 (fold_right Rplus 0 (x :: jx) / n)
                (fold_right Rplus 0 (y :: jy) / n)
                (fold_right Rplus 0 (z :: jz) / n)).
    assert (Ly : INR (List.length (y :: jy)) = n) by (unfold n; now rewrite Hy).
    assert (Lz : INR (List.length (z :: jz)) = n) by (unfold n; now rewrite Hz).
    split.
    { unfold mean_point. rewrite !np_mean_cons. cbv beta iota delta [obind].
      rewrite Ly, Lz. reflexivity. }
    remember (zip3 (x :: jx) (y :: jy) (z :: jz)) as pts eqn:Ep.
    assert (Lp : List.length pts = List.length (x :: jx)).
    { rewrite Ep, zip3_length, Hy, Hz. simpl. lia. }
    destruct pts as [| p pts]; [discriminate|].
    unfold columns, mean_point. cbn [fst snd]. cbv beta iota.
    cbv zeta in A, B, C, D, E, F.
    split.
    + rewrite !map_cons, !np_mean_cons. cbv beta iota delta [obind].
      rewrite <- !map_cons, A, B, C, !length_map, Lp. fold n.
      f_equal. apply vec3_eq; simpl; field; exact Hn.
    + rewrite !map_cons, !np_mean_cons. cbv beta iota delta [obind].
      rewrite <- !map_cons, D, E, F, !length_map, Lp. fold n.
      f_equal. apply vec3_eq; simpl; field; exact Hn.
  - intros ->. split; reflexivity.
Qed.

Lemma X13_mean_markers_witness :
  exists m : vec3,
    mean_point ([1; 3], [2; 4], [5; 7]) = Some m /\
    mean_point (fst (compute_l4_l5_from_jupiter [1; 3] [2; 4] [5; 7] 60))
      = Some (l4_point (cos (deg2rad 60)) (sin (deg2rad 60))
                       (c0 m, c1 m, c2 m)) /\
    mean_point (snd (compute_l4_l5_from_jupiter [1; 3] [2; 4] [5; 7] 60))
      = Some (l5_point (cos (deg2rad 60)) (sin (deg2rad 60))
                       (c0 m, c1 m, c2 m)).
Proof.
  apply (proj1 (X13_mean_markers [1; 3] [2; 4] [5; 7] 60));
    [discriminate | reflexivity | reflexivity].
Defined.

(** ** Marker colours (lucy.py) *)

Lemma dict_get_set_same (d : dict) (k v default : string) :
  dict_get (dict_set d k v) k default = v.
Proof.
  induction d as [| [k' v'] d IH]; simpl.
  - now rewrite String.eqb_refl.
  - destruct (String.eqb k' k) eqn:E; simpl; rewrite E; [reflexivity | exact IH].
Qed.

Lemma dict_get_set_other (d : dict) (k k0 v default : string) :
  k <> k0 -> dict_get (dict_set d k v) k0 default = dict_get d k0 default.
Proof.
  intros Hne. induction d as [| [k' v'] d IH]; simpl.
  - destruct (String.eqb k k0) eqn:E; [| reflexivity].
    apply String.eqb_eq in E. contradiction.
  - destruct (String.eqb k' k) eqn:E; simpl.
    + apply String.eqb_eq in E. subst k'.
      destruct (String.eqb k k0) eqn:E0; [| reflexivity].
      apply String.eqb_eq in E0. contradiction.
    + destruct (String.eqb k' k0); [reflexivity | exact IH].
Qed.

Lemma ident_to_color_snoc (defs : list (string * string * string))
      (label ident color : string) :
  ident_to_color (defs ++ [(label, ident, color)])
  = dict_set (ident_to_color defs) ident color.
Proof. unfold ident_to_color. now rewrite fold_left_app. Qed.

(** X14: the colour looked up for an intercept marker is 'black' when
    the identifier is in no entry of the target table; it is the colour of
    the last entry added under that identifier; and, when the table's
    identifiers are pairwise distinct, it is the colour of the entry with
    that identifier.  The identifiers of lucy.py's table are distinct. *)
Theorem X14_intercept_color (defs : list (string * string * string))
        (ident label color : string) :
  ((forall l c, ~ In (l, ident, c) defs) ->
   intercept_color defs ident = "black"%string) /\
  intercept_color (defs ++ [(label, ident, color)]) ident = color /\
  (NoDup (map (fun t => snd (fst t)) defs) -> In (label, ident, color) defs ->
   intercept_color defs ident = color) /\
  NoDup (map (fun t => snd (fst t)) target_defs).
Proof.
  unfold intercept_color. split; [| split; [| split]].
  - induction defs as [| [[l i] c] defs IH] using rev_ind; intros H.
    + reflexivity.
    + rewrite ident_to_color_snoc, dict_get_set_other.
      * apply IH. intros l' c' Hin. apply (H l' c').
        apply in_or_app. left. exact Hin.
      * intros ->. apply (H l c). apply in_or_app. right. left. reflexivity.
  - rewrite ident_to_color_snoc. apply dict_get_set_same.
  - induction defs as [| [[l i] c] defs IH] using rev_ind; intros Hnd Hin.
    + destruct Hin.
    + rewrite ident_to_color_snoc. rewrite map_app in Hnd. simpl in Hnd.
      apply in_app_or in Hin. destruct Hin as [Hin | [Heq | []]].
      * rewrite dict_get_set_other.
        -- apply IH; [| exact Hin]. apply NoDup_remove_1 in Hnd.
           now rewrite app_nil_r in Hnd.
        -- intros ->. apply NoDup_remove_2 in Hnd. apply Hnd.
           rewrite app_nil_r.
           apply (in_map (fun t => snd (fst t)) _ _ Hin).
      * injection Heq as -> -> ->. apply dict_get_set_same.
  - unfold target_defs. simpl.
    repeat (constructor; [simpl; intuition discriminate|]). constructor.
Qed.

Lemma X14_intercept_color_witness :
  intercept_color target_defs "EARTH" = "black"%string /\
  intercept_color target_defs "20152830" = "crimson"%string.
Proof.
  split.
  - apply (proj1 (X14_intercept_color target_defs "EARTH" "" "")).
    intros l c H. unfold target_defs in H. simpl in H.
    intuition discriminate.
  - apply (proj1 (proj2 (proj2
             (X14_intercept_color target_defs "20152830"
                                  "20152830" "crimson")))).
    + apply (proj2 (proj2 (proj2
               (X14_intercept_color target_defs "20152830"
                                    "20152830" "crimson")))).
    + unfold target_defs. simpl. intuition.
Defined.

(** ** More on time grids *)

Module MoreGridsFacts.

Import TimeGrid TimeGridFacts MoreGrids.
Local Open Scope Q_scope.

Lemma of_nat_pos (i : nat) : (0 < i)%nat -> 0 < of_nat i.
Proof.
  intros H. unfold of_nat. change 0 with (inject_Z 0).
  rewrite <- Zlt_Qlt. lia.
Qed.

Lemma of_nat_succ (i : nat) : of_nat (S i) == of_nat i + 1.
Proof.
  unfold of_nat. rewrite Nat2Z.inj_succ, <- Z.add_1_r, inject_Z_plus.
  reflexivity.
Qed.

(** The closed form of the samples of [linspace]. *)
Lemma linspace_nth (start stop : Q) (num i : nat) :
  (i < num)%nat ->
  nth i (linspace start stop num) 0
  == start + of_nat i * ((stop - start) / of_nat (num - 1)).
Proof.
  intros Hi. destruct num as [| [| d]]; [lia | |].
  - assert (i = 0%nat) as -> by lia. simpl. unfold of_nat. simpl. ring.
  - unfold linspace.
    replace (S (S d) - 1)%nat with (S d) by lia.
    set (f := fun i : nat => start + of_nat i * ((stop - start) / of_nat (S d))).
    destruct (Nat.eq_dec i (S d)) as [-> | Hne].
    + rewrite app_nth2; rewrite length_map, length_seq; [| lia].
      rewrite Nat.sub_diag. simpl.
      pose proof (of_nat_pos (S d) ltac:(lia)) as Hp.
      field. apply pos_nonzero, Hp.
    + rewrite app_nth1 by (rewrite length_map, length_seq; lia).
      rewrite (nth_indep _ 0 (f 0%nat))
        by (rewrite length_map, length_seq; lia).
      rewrite map_nth, seq_nth by lia. reflexivity.
Qed.

(** X15: [np.linspace(start, stop, num)] has [num] samples; the i-th is
    start + i·(stop - start)/(num - 1), so for num >= 2 the first is
    [start], the last is [stop], and consecutive samples are
    (stop - start)/(num - 1) apart. *)
Theorem X15_linspace_shape (start stop : Q) (num : nat) :
  List.length (linspace start stop num) = num /\
  (forall i, (i < num)%nat ->
     nth i (linspace start stop num) 0
     == start + of_nat i * ((stop - start) / of_nat (num - 1))) /\
  ((2 <= num)%nat ->
   nth 0 (linspace start stop num) 0 == start /\
   nth (num - 1) (linspace start stop num) 0 == stop /\
   forall i, (S i < num)%nat ->
     nth (S i) (linspace start stop num) 0 - nth i (linspace start stop num) 0
     == (stop - start) / of_nat (num - 1)).
Proof.
  split; [apply linspace_length|].
  split; [intros i Hi; apply linspace_nth, Hi|].
  intros Hn.
  pose proof (of_nat_pos (num - 1) ltac:(lia)) as Hp.
  split; [| split].
  - rewrite linspace_nth by lia. unfold of_nat at 1. simpl. ring.
  - rewrite linspace_nth by lia. field. apply pos_nonzero, Hp.
  - intros i Hi. rewrite !linspace_nth by lia. rewrite of_nat_succ. ring.
Qed.

Lemma X15_linspace_shape_witness :
  nth 0 (linspace 10 20 5) 0 == 10 /\
  nth (5 - 1) (linspace 10 20 5) 0 == 20 /\
  forall i, (S i < 5)%nat ->
    nth (S i) (linspace 10 20 5) 0 - nth i (linspace 10 20 5) 0
    == (20 - 10) / of_nat (5 - 1).
Proof.
  apply (proj2 (proj2 (X15_linspace_shape 10 20 5))). lia.
Defined.

Lemma arange_nth (start stop step : Q) (i : nat) :
  (i < List.length (arange start stop step))%nat ->
  nth i (arange start stop step) 0 = start + of_nat i * step.
Proof.
  intros Hi. rewrite arange_length in Hi. unfold arange.
  set (f := fun i : nat => start + of_nat i * step).
  rewrite (nth_indep _ 0 (f 0%nat)) by (rewrite length_map, length_seq; lia).
  rewrite map_nth, seq_nth by lia. reflexivity.
Qed.

(** X16: when more than one day is covered, the "one sample per day"
    grid of jwst.py has at least two epochs and consecutive epochs are
    strictly more than 86400 s apart, whereas consecutive epochs of
    vger.py's grid are exactly 86400 s apart, starting at the start
    bound. *)
Theorem X16_daily_spacing (et_start et_end : Q) :
  86400 < et_end - et_start ->
  let n := jwst_total_pts et_start et_end in
  (2 <= n)%nat /\
  (forall i, (S i < n)%nat ->
     86400 < nth (S i) (jwst_ets et_start et_end) 0
             - nth i (jwst_ets et_start et_end) 0) /\
  nth 0 (vger_ets et_start et_end) 0 == et_start /\
  (forall i, (S i < vger_total_pts et_start et_end)%nat ->
     nth (S i) (vger_ets et_start et_end) 0
     - nth i (vger_ets et_start et_end) 0 == 86400).
Proof.
  intros Hd n.
  set (q := (et_end - et_start) / 86400.0).
  assert (Eq : q * 86400 == et_end - et_start)
    by (unfold q; field).
  assert (Hq1 : 1 < q) by (apply Qlt_shift_div_l; [reflexivity | lra]).
  assert (Hc : (2 <= Qceiling q)%Z).
  { assert (H : inject_Z 1 < inject_Z (Qceiling q))
      by (eapply Qlt_le_trans; [exact Hq1 | apply Qle_ceiling]).
    rewrite <- Zlt_Qlt in H. lia. }
  assert (Hn : (2 <= n)%nat) by (unfold n, jwst_total_pts; fold q; lia).
  assert (Hlt : of_nat (n - 1) < q).
  { apply Qle_lt_trans with (inject_Z (Qceiling q - 1)).
    - unfold of_nat, n, jwst_total_pts. fold q. rewrite <- Zle_Qle. lia.
    - apply Qceiling_lt. }
  pose proof (of_nat_pos (n - 1) ltac:(lia)) as Hp.
  split; [exact Hn|]. split; [| split].
  - intros i Hi. unfold jwst_ets. fold n.
    rewrite !linspace_nth by lia. rewrite of_nat_succ.
    assert (Step : et_start + (of_nat i + 1)
                     * ((et_start + (et_end - et_start) - et_start)
                        / of_nat (n - 1))
                   - (et_start + of_nat i
                      * ((et_start + (et_end - et_start) - et_start)
                         / of_nat (n - 1)))
                   == (et_end - et_start) / of_nat (n - 1))
      by (field; apply pos_nonzero, Hp).
    rewrite Step.
    apply Qlt_shift_div_l; [exact Hp|].
    assert (of_nat (n - 1) * 86400 < q * 86400)
      by (apply Qmult_lt_compat_r; [reflexivity | exact Hlt]).
    lra.
  - unfold vger_ets. rewrite arange_nth.
    + unfold of_nat. simpl. ring.
    + rewrite arange_length. fold q. lia.
  - intros i Hi. unfold vger_total_pts, vger_ets in *.
    rewrite !arange_nth by lia. rewrite of_nat_succ. ring.
Qed.

Lemma X16_daily_spacing_witness :
  (2 <= jwst_total_pts 0 200000)%nat /\
  (forall i, (S i < jwst_total_pts 0 200000)%nat ->
     86400 < nth (S i) (jwst_ets 0 200000) 0 - nth i (jwst_ets 0 200000) 0).
Proof.
  destruct (X16_daily_spacing 0 200000) as (A & B & _).
  - reflexivity.
  - split; [exact A | exact B].
Defined.

Lemma py_int_neg (q : Q) : q < 0 -> py_int q = Qceiling q.
Proof.
  intros H. unfold py_int. destruct (Qle_bool 0 q) eqn:E; [| reflexivity].
  apply Qle_bool_iff in E. lra.
Qed.

Lemma py_int_comp (q q' : Q) : q == q' -> py_int q = py_int q'.
Proof.
  intros E. unfold py_int.
  destruct (Qle_bool 0 q) eqn:A; destruct (Qle_bool 0 q') eqn:B.
  - apply Qfloor_comp, E.
  - apply Qle_bool_iff in A. rewrite E in A. apply Qle_bool_iff in A.
    congruence.
  - apply Qle_bool_iff in B. rewrite <- E in B. apply Qle_bool_iff in B.
    congruence.
  - apply Qceiling_comp, E.
Qed.

(** X17: in the juice scripts (sampling rate [per_day] > 0) the number
    of samples is the elapsed time in days times [per_day], truncated
    toward zero.  For end >= start this is the floor, the grid has that
    many epochs and all lie between the bounds; when the product is
    within (-1, 1) the grid is empty; when it is -1 or less,
    [np.linspace] is asked for a negative number of samples and raises.
    juice_cruise.py is the case [per_day] = 1. *)
Theorem X17_juice_grid (per_day et_start et_end : Q) :
  0 < per_day ->
  let q := per_day * (et_end - et_start) / 86400.0 in
  (et_start <= et_end ->
   juice_total_pts per_day et_start et_end = Qfloor q /\
   exists l, juice_ets per_day et_start et_end = Some l /\
             List.length l = Z.to_nat (Qfloor q) /\
             forall t, In t l -> et_start <= t /\ t <= et_end) /\
  (-1 < q -> q < 1 -> juice_ets per_day et_start et_end = Some []) /\
  (q <= -1 -> juice_ets per_day et_start et_end = None) /\
  juice_cruise_total_pts et_start et_end = juice_total_pts 1 et_start et_end /\
  juice_cruise_ets et_start et_end = juice_ets 1 et_start et_end.
Proof.
  intros Hp q.
  assert (Ec : juice_cruise_total_pts et_start et_end
               = juice_total_pts 1 et_start et_end).
  { unfold juice_cruise_total_pts, juice_total_pts. apply py_int_comp.
    field. }
  split; [| split; [| split; [| split; [exact Ec|]]]];
    [| | | unfold juice_cruise_ets, juice_ets; now rewrite Ec].
  - intros Hle.
    assert (Hq : 0 <= q).
    { unfold q. apply Qle_shift_div_l; [reflexivity|]. nra. }
    destruct (py_int_nonneg q Hq) as [E F].
    split; [exact E|].
    exists (linspace et_start (et_start + (et_end - et_start))
                     (Z.to_nat (Qfloor q))).
    split.
    + unfold juice_ets, np_linspace, juice_total_pts. fold q. rewrite E.
      destruct (Qfloor q <? 0)%Z eqn:B; [lia | reflexivity].
    + split; [apply linspace_length|].
      intros t Ht. apply linspace_bounds in Ht; lra.
  - intros Hlo Hhi. unfold juice_ets, np_linspace, juice_total_pts. fold q.
    assert (E : py_int q = 0%Z).
    { destruct (Qlt_le_dec q 0) as [Hn | Hn].
      - rewrite (py_int_neg q Hn).
        assert (H1 : inject_Z (Qceiling q - 1) < inject_Z 0)
          by (eapply Qlt_trans; [apply Qceiling_lt | exact Hn]).
        assert (H2 : inject_Z (-1) < inject_Z (Qceiling q))
          by (eapply Qlt_le_trans; [exact Hlo | apply Qle_ceiling]).
        rewrite <- Zlt_Qlt in H1, H2. lia.
      - destruct (py_int_nonneg q Hn) as [-> F].
        assert (H1 : inject_Z (Qfloor q) < inject_Z 1)
          by (eapply Qle_lt_trans; [apply Qfloor_le | exact Hhi]).
        rewrite <- Zlt_Qlt in H1. lia. }
    rewrite E. reflexivity.
  - intros Hneg. unfold juice_ets, np_linspace, juice_total_pts. fold q.
    rewrite (py_int_neg q) by lra.
    assert (H : (Qceiling q <= -1)%Z).
    { change (-1)%Z with (Qceiling (inject_Z (-1))).
      apply Qceiling_resp_le. exact Hneg. }
    destruct (Qceiling q <? 0)%Z eqn:B; [reflexivity | lia].
Qed.

Lemma X17_juice_grid_witness :
  juice_total_pts 8 0 864001 = 80%Z /\
  (exists l, juice_ets 8 0 864001 = Some l /\
             List.length l = 80%nat /\
             forall t, In t l -> 0 <= t /\ t <= 864001) /\
  juice_ets 1 100000 0 = None.
Proof.
  destruct (X17_juice_grid 8 0 864001) as (A & _); [reflexivity|].
  destruct (X17_juice_grid 1 100000 0) as (_ & _ & C & _); [reflexivity|].
  destruct A as (A1 & A2); [discriminate|].
  split; [exact A1|]. split; [exact A2|].
  apply C. discriminate.
Defined.

Lemma Forall2_map_seq (f g : nat -> Q) (a n : nat) :
  (forall i, f i == g i) ->
  Forall2 Qeq (map f (seq a n)) (map g (seq a n)).
Proof.
  intros H. revert a. induction n as [| n IH]; intros a; simpl; constructor.
  - apply H.
  - apply IH.
Qed.

Lemma linspace_compat (start stop stop' : Q) (num : nat) :
  stop == stop' ->
  Forall2 Qeq (linspace start stop num) (linspace start stop' num).
Proof.
  intros E. destruct num as [| [| d]].
  - constructor.
  - constructor; [reflexivity | constructor].
  - unfold linspace. apply Forall2_app.
    + apply Forall2_map_seq. intros i. now rewrite E.
    + constructor; [exact E | constructor].
Qed.

Lemma map_Q2R_compat {A : Type} (f : R -> A) (l l' : list Q) :
  Forall2 Qeq l l' ->
  map (fun et => f (Q2R et)) l = map (fun et => f (Q2R et)) l'.
Proof.
  induction 1 as [| x y l l' E _ IH]; [reflexivity|].
  simpl. now rewrite (Qeq_eqR _ _ E), IH.
Qed.

Lemma jwst_label_grid_same (et2utc : R -> string -> Z -> string)
      (et_start et_end : Q) :
  Forall2 Qeq (jwst_label_ets et_start et_end) (jwst_ets et_start et_end) /\
  map (fun et => et2utc (Q2R et) "C"%string 0%Z)
      (linspace et_start et_end (jwst_total_pts et_start et_end))
  = map (fun et => et2utc (Q2R et) "C"%string 0%Z)
        (jwst_ets et_start et_end).
Proof.
  assert (F : Forall2 Qeq (jwst_label_ets et_start et_end)
                      (jwst_ets et_start et_end)).
  { unfold jwst_label_ets, jwst_ets. apply linspace_compat. ring. }
  split; [exact F|].
  apply (map_Q2R_compat (fun t => et2utc t "C"%string 0%Z)), F.
Qed.

(** X18: jwst.py builds its hover labels from a second grid
    ([np.linspace(et_start, et_end, total_pts)]); that grid has the same
    epochs as the grid the spacecraft was sampled on, so the i-th label
    is the time of the i-th sample. *)
Theorem X18_jwst_labels_match (et2utc : R -> string -> Z -> string)
        (et_start et_end : Q) :
  Forall2 Qeq (jwst_label_ets et_start et_end) (jwst_ets et_start et_end) /\
  map (fun et => et2utc (Q2R et) "C"%string 0%Z)
      (jwst_label_ets et_start et_end)
  = map (fun et => et2utc (Q2R et) "C"%string 0%Z)
        (jwst_ets et_start et_end).
Proof. apply jwst_label_grid_same. Qed.

(** X19: the mid epoch of nrho_plot.py, half the sum of the first and
    the last sampled epoch, is the start epoch plus half of the hard-coded
    6.7-day period (289440 s), and the 400 samples span exactly one
    period. *)
Theorem X19_nrho_mid_epoch (et_start : Q) :
  List.length (nrho_ets et_start) = 400%nat /\
  hd 0 (nrho_ets et_start) == et_start /\
  last (nrho_ets et_start) 0 == et_start + 578880 /\
  nrho_et_mid et_start == et_start + 289440.
Proof.
  assert (H : hd 0 (nrho_ets et_start) == et_start).
  { unfold nrho_ets, nrho_npts, linspace. simpl hd. unfold of_nat. simpl.
    ring. }
  assert (L : last (nrho_ets et_start) 0 = et_start + nrho_period).
  { unfold nrho_ets, nrho_npts, linspace. apply last_last. }
  split; [apply linspace_length|]. split; [exact H|].
  split.
  - rewrite L. unfold nrho_period. field.
  - unfold nrho_et_mid. rewrite L, H. unfold nrho_period. field.
Qed.

End MoreGridsFacts.

(** ** The other samplers *)

Lemma pos_loop spkezr (targ frame obs : string) (ets : list Q) :
  forall x y z : list R,
    fold_left (pos_step spkezr targ frame obs) ets (x, y, z) =
    (x ++ map (fun et => c0 (pos (spkezr targ (Q2R et) frame "NONE"%string obs))) ets,
     y ++ map (fun et => c1 (pos (spkezr targ (Q2R et) frame "NONE"%string obs))) ets,
     z ++ map (fun et => c2 (pos (spkezr targ (Q2R et) frame "NONE"%string obs))) ets).
Proof.
  induction ets as [| et ets IH]; intros x y z; simpl.
  - now rewrite !app_nil_r.
  - rewrite IH, <- !app_assoc. reflexivity.
Qed.

Lemma state_loop spkezr (targ frame obs : string) (ets : list Q) :
  forall x y z vx vy vz : list R,
    fold_left (state_step spkezr targ frame obs) ets ((x, y, z), (vx, vy, vz)) =
    ((x ++ map (fun et => c0 (pos (spkezr targ (Q2R et) frame "NONE"%string obs))) ets,
      y ++ map (fun et => c1 (pos (spkezr targ (Q2R et) frame "NONE"%string obs))) ets,
      z ++ map (fun et => c2 (pos (spkezr targ (Q2R et) frame "NONE"%string obs))) ets),
     (vx ++ map (fun et => c0 (vel (spkezr targ (Q2R et) frame "NONE"%string obs))) ets,
      vy ++ map (fun et => c1 (vel (spkezr targ (Q2R et) frame "NONE"%string obs))) ets,
      vz ++ map (fun et => c2 (vel (spkezr targ (Q2R et) frame "NONE"%string obs))) ets)).
Proof.
  induction ets as [| et ets IH]; intros x y z vx vy vz; simpl.
  - now rewrite !app_nil_r.
  - rewrite IH, <- !app_assoc. reflexivity.
Qed.

Lemma jwst_sample_spacecraft_value spkezr (sc_id : body_id)
      (et_start period : Q) (npts : nat) :
  let ets := TimeGrid.linspace et_start (et_start + period)%Q npts in
  jwst_sample_spacecraft spkezr sc_id et_start period npts =
    (columns (map (fun et => pos (spkezr (str sc_id) (Q2R et) "GSE"%string
                                         "NONE"%string "EARTH"%string)) ets),
     ets,
     columns (map (fun et => vel (spkezr (str sc_id) (Q2R et) "GSE"%string
                                         "NONE"%string "EARTH"%string)) ets)).
Proof.
  intros ets. unfold jwst_sample_spacecraft, columns. fold ets.
  rewrite state_loop. simpl. rewrite !map_map. reflexivity.
Qed.

Lemma lucy_sample_object_value spkezr (sc_id : body_id)
      (et_start period : Q) (npts : nat) :
  let ets := TimeGrid.linspace et_start (et_start + period)%Q npts in
  lucy_sample_object spkezr sc_id et_start period npts =
    (columns (map (fun et => pos (spkezr (str sc_id) (Q2R et) "HJB"%string
                                         "NONE"%string "SUN"%string)) ets),
     ets,
     columns (map (fun et => vel (spkezr (str sc_id) (Q2R et) "HJB"%string
                                         "NONE"%string "SUN"%string)) ets)).
Proof.
  intros ets. unfold lucy_sample_object, columns. fold ets.
  rewrite state_loop. simpl. rewrite !map_map. reflexivity.
Qed.

(** X20: the samplers of jwst.py, lucy.py, genesis_halo_plot.py and
    juice_cruise.py return, for each coordinate, one entry per epoch of
    the [np.linspace] grid, in grid order: the i-th entries are the
    coordinates of the state at the i-th epoch, and every list has
    [npts] entries; juice_cruise.py's sampler raises on a negative
    [npts]. *)
Theorem X20_samplers_follow_grid spkezr (sc_id : body_id)
        (et_start period : Q) (npts : nat) (znpts : Z) :
  let ets := TimeGrid.linspace et_start (et_start + period)%Q npts in
  let at_ frame obs et :=
    spkezr (str sc_id) (Q2R et) frame "NONE"%string obs in
  List.length ets = npts /\
  jwst_sample_spacecraft spkezr sc_id et_start period npts =
    (columns (map (fun et => pos (at_ "GSE" "EARTH" et)) ets), ets,
     columns (map (fun et => vel (at_ "GSE" "EARTH" et)) ets))%string /\
  lucy_sample_object spkezr sc_id et_start period npts =
    (columns (map (fun et => pos (at_ "HJB" "SUN" et)) ets), ets,
     columns (map (fun et => vel (at_ "HJB" "SUN" et)) ets))%string /\
  genesis_sample_spacecraft spkezr sc_id et_start period npts =
    columns (map (fun et => pos (at_ "GSE" "EARTH" et)) ets)%string /\
  ((0 <= znpts)%Z ->
   juice_cruise_sample_object spkezr sc_id et_start period znpts =
     Some (columns (map (fun et => pos (at_ "JUICE" "SUN" et))
                        (TimeGrid.linspace et_start (et_start + period)%Q
                                           (Z.to_nat znpts))))%string) /\
  ((znpts < 0)%Z ->
   juice_cruise_sample_object spkezr sc_id et_start period znpts = None).
Proof.
  intros ets at_. unfold columns.
  split; [apply TimeGridFacts.linspace_length|].
  split; [| split; [| split; [| split]]].
  - apply jwst_sample_spacecraft_value.
  - apply lucy_sample_object_value.
  - unfold genesis_sample_spacecraft. fold ets. rewrite pos_loop. simpl.
    rewrite !map_map. reflexivity.
  - intros H. unfold juice_cruise_sample_object, MoreGrids.np_linspace.
    destruct (znpts <? 0)%Z eqn:B; [lia|]. simpl.
    rewrite pos_loop. simpl. rewrite !map_map. reflexivity.
  - intros H. unfold juice_cruise_sample_object, MoreGrids.np_linspace.
    destruct (znpts <? 0)%Z eqn:B; [reflexivity | lia].
Qed.

Lemma X20_samplers_follow_grid_witness :
  juice_cruise_sample_object circular_moon (IntId (-28)) 0 10 2 =
    Some ([1; 1], [0; 0], [0; 0]) /\
  juice_cruise_sample_object circular_moon (IntId (-28)) 0 10 (-1) = None.
Proof.
  destruct (X20_samplers_follow_grid circular_moon (IntId (-28)) 0 10 0 2)
    as (_ & _ & _ & _ & A & _).
  destruct (X20_samplers_follow_grid circular_moon (IntId (-28)) 0 10 0 (-1))
    as (_ & _ & _ & _ & _ & B).
  split; [apply A; lia | apply B; lia].
Defined.

Lemma map_nth_seq {A : Type} (l : list A) (d : A) :
  map (fun i => nth i l d) (seq 0 (List.length l)) = l.
Proof.
  induction l as [| a l IH]; [reflexivity|].
  simpl. f_equal. rewrite <- seq_shift, map_map. exact IH.
Qed.

Lemma speeds_of_columns (vs : list vec3) :
  speeds_of (columns vs) = map norm vs.
Proof.
  unfold speeds_of, columns. rewrite length_map.
  transitivity (map norm (map (fun i => nth i vs zero3)
                              (seq 0 (List.length vs))));
    [| now rewrite map_nth_seq].
  rewrite map_map. apply map_ext. intros i.
  change (nth i (map c0 vs) 0) with (nth i (map c0 vs) (c0 zero3)).
  change (nth i (map c1 vs) 0) with (nth i (map c1 vs) (c1 zero3)).
  change (nth i (map c2 vs) 0) with (nth i (map c2 vs) (c2 zero3)).
  rewrite !map_nth. destruct (nth i vs zero3). reflexivity.
Qed.

Lemma combine_map {A B C : Type} (f : A -> B) (g : A -> C) (l : list A) :
  combine (map f l) (map g l) = map (fun a => (f a, g a)) l.
Proof. induction l as [| a l IH]; simpl; [| rewrite IH]; reflexivity. Qed.

(** X21: the hover data of jwst.py and lucy.py has exactly one row per
    sampled epoch (the [zip] truncates nothing), and its i-th row is the
    UTC label of the i-th sampled epoch together with the norm of the
    velocity sampled at that epoch. *)
Theorem X21_customdata_aligned spkezr et2utc (et_start et_end : Q)
        (total_pts : nat) :
  jwst_customdata spkezr et2utc et_start et_end =
    map (fun et =>
           (et2utc (Q2R et) "C"%string 0%Z,
            norm (vel (spkezr "-170"%string (Q2R et) "GSE"%string
                              "NONE"%string "EARTH"%string))))
        (TimeGrid.jwst_ets et_start et_end) /\
  List.length (jwst_customdata spkezr et2utc et_start et_end)
    = TimeGrid.jwst_total_pts et_start et_end /\
  lucy_customdata spkezr et2utc et_start et_end total_pts =
    map (fun et =>
           (et2utc (Q2R et) "C"%string 0%Z,
            norm (vel (spkezr "-49"%string (Q2R et) "HJB"%string
                              "NONE"%string "SUN"%string))))
        (TimeGrid.linspace et_start (et_start + (et_end - et_start))%Q
                           total_pts) /\
  List.length (lucy_customdata spkezr et2utc et_start et_end total_pts)
    = total_pts.
Proof.
  assert (J : jwst_customdata spkezr et2utc et_start et_end =
    map (fun et =>
           (et2utc (Q2R et) "C"%string 0%Z,
            norm (vel (spkezr "-170"%string (Q2R et) "GSE"%string
                              "NONE"%string "EARTH"%string))))
        (TimeGrid.jwst_ets et_start et_end)).
  { unfold jwst_customdata. rewrite jwst_sample_spacecraft_value.
    cbv zeta. cbv beta iota.
    rewrite speeds_of_columns, map_map.
    rewrite (proj2 (MoreGridsFacts.jwst_label_grid_same
                      et2utc et_start et_end)).
    unfold TimeGrid.jwst_ets. apply combine_map. }
  assert (L : lucy_customdata spkezr et2utc et_start et_end total_pts =
    map (fun et =>
           (et2utc (Q2R et) "C"%string 0%Z,
            norm (vel (spkezr "-49"%string (Q2R et) "HJB"%string
                              "NONE"%string "SUN"%string))))
        (TimeGrid.linspace et_start (et_start + (et_end - et_start))%Q
                           total_pts)).
  { unfold lucy_customdata. rewrite lucy_sample_object_value.
    cbv zeta. cbv beta iota.
    rewrite speeds_of_columns, map_map. apply combine_map. }
  split; [exact J|]. split; [| split; [exact L|]].
  - rewrite J, length_map. apply TimeGridFacts.linspace_length.
  - rewrite L, length_map. apply TimeGridFacts.linspace_length.
Qed.

(** X22: in vger.py the guard [len(utcs) == len(speeds)] never fails:
    the custom data is always built.  It is a two-column array of text
    with one row per retained sample, in order, holding the UTC label of
    a retained epoch and the text form of the speed at that same epoch;
    the speeds that [sample_object] returns are non-negative. *)
Theorem X22_voyager_custom spkezr et2utc float_str (sc_id : body_id)
        (et_array : list R) :
  let kept := filter (retained spkezr sc_id) et_array in
  let rows :=
    map (fun et => [et2utc et "C"%string 0%Z;
                    float_str (norm (vel (vger_state spkezr sc_id et)))])
        kept in
  let '(x, _, _, speeds, _) := sample_object spkezr et2utc sc_id et_array in
  voyager_custom float_str (sample_object spkezr et2utc sc_id et_array)
    = Some rows /\
  List.length rows = List.length x /\
  Forall (fun row => List.length row = 2%nat) rows /\
  Forall (fun v => 0 <= v) speeds.
Proof.
  intros kept rows. rewrite sample_object_value. cbv zeta. fold kept.
  split; [| split; [| split]].
  - unfold voyager_custom, np_column_stack.
    rewrite !length_map, Nat.eqb_refl. f_equal.
    rewrite combine_map, map_map. reflexivity.
  - unfold rows. now rewrite !length_map.
  - apply Forall_forall. intros row Hin. apply in_map_iff in Hin.
    destruct Hin as (et & <- & _). reflexivity.
  - apply Forall_forall. intros v Hin. apply in_map_iff in Hin.
    destruct Hin as (et & <- & _). apply norm_nonneg.
Qed.

(** ** Output control *)

Module ExportFacts.

Import StaticExport HtmlExport.
Local Open Scope string_scope.

Lemma no_static_flag (argv : list string) :
  ~ In "--static" argv -> existsb (String.eqb "--static") argv = false.
Proof.
  intros H. destruct (existsb (String.eqb "--static") argv) eqn:E;
    [| reflexivity].
  apply existsb_exists in E. destruct E as (a & Hin & Ha).
  apply String.eqb_eq in Ha. subst a. contradiction.
Qed.

Lemma lookup_filter_other (p q : string) (fs : list (string * string)) :
  p <> q ->
  lookup p (filter (fun pc => negb (String.eqb (fst pc) q)) fs) = lookup p fs.
Proof.
  intros Hne. induction fs as [| [k c] fs IH]; [reflexivity|].
  simpl. destruct (String.eqb k q) eqn:Eq; simpl.
  - apply String.eqb_eq in Eq. subst k.
    destruct (String.eqb q p) eqn:Ep; [| exact IH].
    apply String.eqb_eq in Ep. congruence.
  - destruct (String.eqb k p); [reflexivity | exact IH].
Qed.

Lemma lookup_write_other (p q c : string) (w : world) :
  p <> q -> lookup p (files (snd (write_file q c w))) = lookup p (files w).
Proof.
  intros Hne. simpl. destruct (String.eqb q p) eqn:E.
  - apply String.eqb_eq in E. congruence.
  - apply lookup_filter_other, Hne.
Qed.

Lemma path_join_inj (d f g : string) :
  os_path_join d f = os_path_join d g -> f = g.
Proof.
  unfold os_path_join. induction d as [| a d IH]; simpl; intros H.
  - now injection H.
  - injection H as H. apply IH, H.
Qed.

(** X23: without the [--static] flag no script creates a directory,
    writes a file or prints anything in its output block: it only opens
    the viewer and returns normally, whatever the rasterizer would do. *)
Theorem X23_interactive_mode_writes_nothing (fig_html fig_png : string)
        (rasterizer : option py_exc) (html_name png_name : string)
        (argv : list string) (w : world) :
  ~ In "--static" argv ->
  output_control fig_html fig_png rasterizer html_name png_name argv w
    = (Ret tt, mk_world (dirs w) (files w) (stdout w) true) /\
  output_control_html fig_html html_name argv w
    = (Ret tt, mk_world (dirs w) (files w) (stdout w) true).
Proof.
  intros H. unfold output_control, output_control_html.
  rewrite (no_static_flag _ H). split; reflexivity.
Qed.

Lemma X23_interactive_mode_writes_nothing_witness :
  nrho_plot_output "<html>" "PNG" None ["nrho_plot.py"] initial_world
    = (Ret tt, mk_world [] [] [] true) /\
  vger_output "<html>" ["vger.py"] initial_world
    = (Ret tt, mk_world [] [] [] true).
Proof.
  apply (X23_interactive_mode_writes_nothing
           "<html>" "PNG" None "nrho_plot.html" "nrho_preview.png"
           ["nrho_plot.py"] initial_world).
  simpl. intuition discriminate.
Defined.

(** X24: with [--static] and a working rasterizer, nrho_plot.py and
    genesis_halo_plot.py return normally having written the HTML and the
    PNG under docs/ (distinct names), created docs/ if absent, printed
    the two messages in order and left every other file as it was; the
    viewer is not opened. *)
Theorem X24_static_export_success (fig_html fig_png : string)
        (html_name png_name : string) (argv : list string) (w : world) :
  In "--static" argv -> html_name <> png_name ->
  let run := output_control fig_html fig_png None html_name png_name argv w in
  let html_path := os_path_join "docs" html_name in
  let png_path := os_path_join "docs" png_name in
  fst run = Ret tt /\
  lookup html_path (files (snd run)) = Some fig_html /\
  lookup png_path (files (snd run)) = Some fig_png /\
  (forall p, p <> html_path -> p <> png_path ->
             lookup p (files (snd run)) = lookup p (files w)) /\
  stdout (snd run) =
    (stdout w ++ [("Wrote interactive HTML: " ++ html_path)%string;
                  ("Wrote static preview PNG: " ++ png_path)%string])%list /\
  In "docs" (dirs (snd run)) /\
  shown (snd run) = shown w.
Proof.
  intros Hs Hne run html_path png_path.
  assert (Hp : png_path <> html_path).
  { intros E. apply Hne. symmetry. apply (path_join_inj "docs"), E. }
  unfold run, output_control.
  rewrite (StaticExportFacts.static_flag_found _ Hs).
  cbv zeta. fold html_path png_path. clearbody html_path png_path.
  unfold seq_, bind, try_except_Exception, fig_write_image, fig_write_html.
  cbn -[os_path_join String.append lookup filter existsb String.eqb].
  split; [reflexivity|]. split; [| split; [| split; [| split; [| split]]]].
  - cbn [lookup]. destruct (String.eqb png_path html_path) eqn:E.
    + apply String.eqb_eq in E. contradiction.
    + cbn [filter fst].
      destruct (String.eqb html_path png_path) eqn:E2;
        [apply String.eqb_eq in E2; congruence|].
      cbn [negb lookup]. now rewrite String.eqb_refl.
  - cbn [lookup]. now rewrite String.eqb_refl.
  - intros p H1 H2. cbn [lookup].
    destruct (String.eqb png_path p) eqn:E;
      [apply String.eqb_eq in E; congruence|].
    rewrite lookup_filter_other by exact H2. cbn [lookup].
    destruct (String.eqb html_path p) eqn:E';
      [apply String.eqb_eq in E'; congruence|].
    apply lookup_filter_other, H1.
  - rewrite <- app_assoc. reflexivity.
  - destruct (existsb (String.eqb "docs") (dirs w)) eqn:E.
    + apply existsb_exists in E. destruct E as (a & Hin & Ha).
      apply String.eqb_eq in Ha. now subst a.
    + apply in_or_app. right. left. reflexivity.
  - reflexivity.
Qed.

Lemma X24_static_export_success_witness :
  let run := nrho_plot_output "<html>" "PNG" None
                              ["nrho_plot.py"; "--static"] initial_world in
  fst run = Ret tt /\
  lookup "docs/nrho_plot.html" (files (snd run)) = Some "<html>" /\
  lookup "docs/nrho_preview.png" (files (snd run)) = Some "PNG".
Proof.
  intros run.
  destruct (X24_static_export_success "<html>" "PNG" "nrho_plot.html"
              "nrho_preview.png" ["nrho_plot.py"; "--static"] initial_world)
    as (A & B & C & _).
  - right; left; reflexivity.
  - discriminate.
  - split; [exact A|]. split; [exact B | exact C].
Defined.

(** X25: with [--static], the scripts without a PNG preview (vger.py,
    jwst.py, lucy.py, juice_cruise.py) return normally having written
    the HTML under docs/ and printed one message; no other file is
    created or changed, and the viewer is not opened. *)
Theorem X25_html_only_export (fig_html html_name : string)
        (argv : list string) (w : world) :
  In "--static" argv ->
  let run := output_control_html fig_html html_name argv w in
  let html_path := os_path_join "docs" html_name in
  fst run = Ret tt /\
  lookup html_path (files (snd run)) = Some fig_html /\
  (forall p, p <> html_path ->
             lookup p (files (snd run)) = lookup p (files w)) /\
  stdout (snd run)
    = (stdout w ++ [("Wrote interactive HTML: " ++ html_path)%string])%list /\
  In "docs" (dirs (snd run)) /\
  shown (snd run) = shown w.
Proof.
  intros Hs run html_path. unfold run, output_control_html.
  rewrite (StaticExportFacts.static_flag_found _ Hs).
  cbv zeta. fold html_path. clearbody html_path.
  unfold seq_, bind, fig_write_html.
  cbn -[os_path_join String.append lookup filter existsb String.eqb].
  split; [reflexivity|]. split; [| split; [| split; [| split]]].
  - cbn [lookup]. now rewrite String.eqb_refl.
  - intros p H1. cbn [lookup].
    destruct (String.eqb html_path p) eqn:E;
      [apply String.eqb_eq in E; congruence|].
    apply lookup_filter_other, H1.
  - reflexivity.
  - destruct (existsb (String.eqb "docs") (dirs w)) eqn:E.
    + apply existsb_exists in E. destruct E as (a & Hin & Ha).
      apply String.eqb_eq in Ha. now subst a.
    + apply in_or_app. right. left. reflexivity.
  - reflexivity.
Qed.

Lemma X25_html_only_export_witness :
  let run := vger_output "<html>" ["vger.py"; "--static"] initial_world in
  fst run = Ret tt /\
  lookup "docs/vger.html" (files (snd run)) = Some "<html>" /\
  stdout (snd run) = ["Wrote interactive HTML: docs/vger.html"].
Proof.
  intros run.
  destruct (X25_html_only_export "<html>" "vger.html"
              ["vger.py"; "--static"] initial_world)
    as (A & B & _ & D & _).
  - right; left; reflexivity.
  - split; [exact A|]. split; [exact B | exact D].
Defined.

End ExportFacts.

(** ** Spheres *)

Lemma mgrid_axis_length (stop : R) (n : nat) :
  List.length (mgrid_axis stop n) = n.
Proof. unfold mgrid_axis. now rewrite length_map, length_seq. Qed.

Lemma mgrid_axis_nth (stop : R) (n i : nat) :
  (i < n)%nat -> nth i (mgrid_axis stop n) 0 = INR i * (stop / INR (n - 1)).
Proof.
  intros Hi. unfold mgrid_axis.
  set (f := fun i : nat => INR i * (stop / INR (n - 1))).
  rewrite (nth_indep _ 0 (f 0%nat)) by (rewrite length_map, length_seq; lia).
  rewrite map_nth, seq_nth by lia. reflexivity.
Qed.

Lemma nth_map_rows (f : R -> list R) (us : list R) (i : nat) :
  (i < List.length us)%nat -> nth i (map f us) [] = f (nth i us 0).
Proof.
  intros Hi. rewrite (nth_indep _ [] (f 0)) by (rewrite length_map; lia).
  apply map_nth.
Qed.

Lemma nth_map_cols (g : R -> R) (vs : list R) (j : nat) :
  (j < List.length vs)%nat -> nth j (map g vs) 0 = g (nth j vs 0).
Proof.
  intros Hj. rewrite (nth_indep _ 0 (g 0)) by (rewrite length_map; lia).
  apply map_nth.
Qed.

Lemma make_sphere_point (center : vec3) (radius : R) (color name : string)
      (i j : nat) :
  (i < 40)%nat -> (j < 20)%nat ->
  let u := nth i (mgrid_axis (2 * PI) 40) 0 in
  let v := nth j (mgrid_axis PI 20) 0 in
  surface_point (make_sphere center radius color name) i j =
  mk3 (radius * cos u * sin v + c0 center)
      (radius * sin u * sin v + c1 center)
      (radius * cos v + c2 center).
Proof.
  intros Hi Hj u v. unfold surface_point, make_sphere.
  cbn [surface_x surface_y surface_z].
  rewrite !nth_map_rows by (rewrite mgrid_axis_length; exact Hi).
  rewrite !nth_map_cols by (rewrite mgrid_axis_length; exact Hj).
  reflexivity.
Qed.

Lemma rows_of_width (f : R -> R -> R) (us vs : list R) :
  Forall (fun row => List.length row = List.length vs)
         (map (fun u => map (f u) vs) us).
Proof.
  apply Forall_forall. intros row Hin. apply in_map_iff in Hin.
  destruct Hin as (u & <- & _). apply length_map.
Qed.

(** X26: [make_sphere] produces three 40 x 20 grids; every grid point
    lies at distance |radius| from the centre; the first and last
    columns are the two poles (centre ± radius along Z); and the last
    row coincides with the first, so the surface closes on itself. *)
Theorem X26_make_sphere (center : vec3) (radius : R) (color name : string) :
  let s := make_sphere center radius color name in
  (List.length (surface_x s) = 40%nat /\
   List.length (surface_y s) = 40%nat /\
   List.length (surface_z s) = 40%nat) /\
  (Forall (fun row => List.length row = 20%nat) (surface_x s) /\
   Forall (fun row => List.length row = 20%nat) (surface_y s) /\
   Forall (fun row => List.length row = 20%nat) (surface_z s)) /\
  (forall i j, (i < 40)%nat -> (j < 20)%nat ->
     norm (vsub (surface_point s i j) center) = Rabs radius) /\
  (forall i, (i < 40)%nat ->
     surface_point s i 0 = mk3 (c0 center) (c1 center) (c2 center + radius) /\
     surface_point s i 19 = mk3 (c0 center) (c1 center) (c2 center - radius)) /\
  (forall j, (j < 20)%nat -> surface_point s 39 j = surface_point s 0 j).
Proof.
  intros s. subst s.
  split; [| split; [| split; [| split]]].
  - unfold make_sphere. cbn [surface_x surface_y surface_z].
    rewrite !length_map, mgrid_axis_length. repeat split.
  - unfold make_sphere. cbn [surface_x surface_y surface_z].
    pose proof (mgrid_axis_length PI 20) as L.
    repeat split;
      [ pose proof (rows_of_width
                      (fun u v => radius * cos u * sin v + c0 center)
                      (mgrid_axis (2 * PI) 40) (mgrid_axis PI 20)) as H
      | pose proof (rows_of_width
                      (fun u v => radius * sin u * sin v + c1 center)
                      (mgrid_axis (2 * PI) 40) (mgrid_axis PI 20)) as H
      | pose proof (rows_of_width
                      (fun u v => radius * cos v + c2 center)
                      (mgrid_axis (2 * PI) 40) (mgrid_axis PI 20)) as H ];
      rewrite L in H; exact H.
  - intros i j Hi Hj. rewrite (make_sphere_point _ _ _ _ i j Hi Hj).
    cbv zeta.
    set (u := nth i (mgrid_axis (2 * PI) 40) 0).
    set (v := nth j (mgrid_axis PI 20) 0).
    pose proof (cos2_sin2 u) as Hu. pose proof (cos2_sin2 v) as Hv.
    rewrite <- sqrt_Rsqr_abs. unfold norm. f_equal.
    unfold dot, vsub, Rsqr. simpl.
    replace ((radius * cos u * sin v + c0 center - c0 center)
             * (radius * cos u * sin v + c0 center - c0 center)
             + (radius * sin u * sin v + c1 center - c1 center)
               * (radius * sin u * sin v + c1 center - c1 center)
             + (radius * cos v + c2 center - c2 center)
               * (radius * cos v + c2 center - c2 center))
      with (radius * radius
            * ((cos u * cos u + sin u * sin u) * (sin v * sin v)
               + cos v * cos v)) by ring.
    rewrite Hu. replace (1 * (sin v * sin v) + cos v * cos v)
      with (cos v * cos v + sin v * sin v) by ring.
    rewrite Hv. ring.
  - intros i Hi. split.
    + rewrite (make_sphere_point _ _ _ _ i 0 Hi ltac:(lia)). cbv zeta.
      rewrite (mgrid_axis_nth PI 20 0) by lia.
      replace (INR 0 * (PI / INR (20 - 1))) with 0 by (simpl; ring).
      rewrite sin_0, cos_0. apply vec3_eq; simpl; ring.
    + rewrite (make_sphere_point _ _ _ _ i 19 Hi ltac:(lia)). cbv zeta.
      rewrite (mgrid_axis_nth PI 20 19) by lia.
      replace (INR 19 * (PI / INR (20 - 1))) with PI by (simpl; field).
      rewrite sin_PI, cos_PI. apply vec3_eq; simpl; ring.
  - intros j Hj.
    rewrite (make_sphere_point _ _ _ _ 39 j ltac:(lia) Hj).
    rewrite (make_sphere_point _ _ _ _ 0 j ltac:(lia) Hj). cbv zeta.
    rewrite (mgrid_axis_nth (2 * PI) 40 39), (mgrid_axis_nth (2 * PI) 40 0)
      by lia.
    replace (INR 39 * (2 * PI / INR (40 - 1))) with (2 * PI)
      by (simpl; field).
    replace (INR 0 * (2 * PI / INR (40 - 1))) with 0 by (simpl; ring).
    rewrite cos_2PI, sin_2PI, cos_0, sin_0. reflexivity.
Qed.

Lemma X26_make_sphere_witness :
  norm (vsub (surface_point (make_sphere (mk3 1 2 3) 5 "gray" "Moon") 3 4)
             (mk3 1 2 3)) = Rabs 5 /\
  surface_point (make_sphere (mk3 1 2 3) 5 "gray" "Moon") 7 0
    = mk3 1 2 (3 + 5) /\
  surface_point (make_sphere (mk3 1 2 3) 5 "gray" "Moon") 39 4
    = surface_point (make_sphere (mk3 1 2 3) 5 "gray" "Moon") 0 4.
Proof.
  destruct (X26_make_sphere (mk3 1 2 3) 5 "gray" "Moon")
    as (_ & _ & A & B & C).
  split; [apply A; lia|]. split; [apply (proj1 (B 7%nat ltac:(lia)))|].
  apply C. lia.
Defined.
